(** * Hyperproof API scripts: a shallow embedding

    The repository holds two scripts, [add_proof_to_control.py] and
    [call_hyperproof_api.py].  Every function of both obtains an OAuth2
    token and then performs one HTTP request through the [requests]
    library.  The functions are embedded as computations in a small
    monad that reads an external world (process environment, remote
    servers, file system), writes a trace of observable events (lines
    printed, records logged, requests sent, files opened) and ends by
    returning a Python value, raising an exception or leaving the
    process through [sys.exit]. *)

From Stdlib Require Import String Ascii List ZArith QArith Bool Lia.
Import ListNotations.
Set Warnings "-register-all".
Local Open Scope string_scope.
Local Open Scope Z_scope.

(** ** Python values

    The values that [response.json()] can produce, which are also the
    values the functions return: [None], booleans, numbers, strings,
    lists and dictionaries with string keys. *)

Inductive value : Type :=
| VNone
| VBool (b : bool)
| VInt (n : Z)
| VFloat (q : Q)
| VStr (s : string)
| VList (l : list value)
| VDict (d : list (string * value)).

(** Truth value testing, as done by [if x:] and [not x]. *)
Definition truthy (v : value) : bool :=
  match v with
  | VNone => false
  | VBool b => b
  | VInt n => negb (n =? 0)
  | VFloat q => negb (Qnum q =? 0)
  | VStr s => negb (s =? "")%string
  | VList l => match l with [] => false | _ => true end
  | VDict d => match d with [] => false | _ => true end
  end.

(** Truth value of an optional string argument (default [None]). *)
Definition truthy_arg (a : option string) : bool :=
  match a with
  | None => false
  | Some s => negb (s =? "")%string
  end.

(** [d.get(k)] on a dictionary held as an association list. *)
Fixpoint dict_get (d : list (string * value)) (k : string) : value :=
  match d with
  | [] => VNone
  | (k', v) :: d' => if (k' =? k)%string then v else dict_get d' k
  end.

(** [k in d]. *)
Fixpoint dict_mem (d : list (string * value)) (k : string) : bool :=
  match d with
  | [] => false
  | (k', _) :: d' => if (k' =? k)%string then true else dict_mem d' k
  end.

(** ** The [requests] library *)

Record Response : Type := {
  status_code : Z;
  text : string;
  (** what [response.json()] decodes, [None] when the body is not JSON *)
  decoded : option value
}.

(** The exceptions that reach the handlers of the two scripts.
    [HTTPError] is raised by [raise_for_status] and carries the response;
    [JSONDecodeError] is the one of [requests.exceptions], a subclass of
    both [RequestException] and [json.JSONDecodeError], and carries the
    text that failed to decode;
    [RequestException] stands for the remaining exceptions of
    [requests] (connection errors, timeouts, ...). *)
Inductive exn : Type :=
| HTTPError (r : Response)
| RequestException (m : string)
| JSONDecodeError (doc : string)
| FileNotFoundError (path : string)
| OSError (m : string)
| AttributeError (m : string)
| TypeError (m : string)
| OtherException (m : string).

(** The classes named in the [except] clauses of the scripts. *)
Inductive exn_class : Type :=
| CRequestException
| CHTTPError
| CJSONDecodeError
| CFileNotFoundError
| CException.

Definition isinstance (e : exn) (c : exn_class) : bool :=
  match c, e with
  | CException, _ => true
  | CRequestException, (HTTPError _ | RequestException _ | JSONDecodeError _) => true
  | CHTTPError, HTTPError _ => true
  | CJSONDecodeError, JSONDecodeError _ => true
  | CFileNotFoundError, FileNotFoundError _ => true
  | _, _ => false
  end.

Inductive http_method : Type := GET | POST.

(** A header value: a literal, or the f-string [f"Bearer {access_token}"]. *)
Inductive header_value : Type :=
| HLit (s : string)
| HBearer (tok : value).

(** One entry of the [files=] dictionary: [(name, f)] or
    [(name, f, content_type)], [f] being the open file. *)
Record file_part : Type := {
  filename : string;
  content : string;
  part_type : option string
}.

Inductive body : Type :=
| NoBody
| FormBody (data : list (string * option string))
| JsonBody (fields : list (string * string))
| MultipartBody (files : list (string * file_part))
                (data : list (string * option string)).

Record request : Type := {
  method : http_method;
  url : string;
  headers : list (string * header_value);
  payload : body
}.

(** ** Messages, events, the world *)

(** An f-string: literal text and interpolated values. *)
Inductive part : Type :=
| Lit (s : string)
| FStr (s : string)
| FInt (n : Z)
| FExn (e : exn)
| FDumps (v : value).

Definition message : Type := list part.

Inductive level : Type := INFO | ERROR.

Inductive event : Type :=
| EPrint (m : message)
| ELog (l : level) (m : message)
| EOpen (path : string)
| EHttp (r : request).

Inductive reply : Type :=
| Reply (r : Response)
| Fail (e : exn).

Inductive file_state : Type :=
| FileOk (bytes : string)
| FileMissing
| FileError (m : string).

Record world : Type := {
  environ : string -> option string;
  http : request -> reply;
  fs : string -> file_state
}.

(** ** The monad *)

Inductive outcome (A : Type) : Type :=
| Ret (a : A)
| Raise (e : exn)
| Exit (code : Z).
Arguments Ret {A} a.
Arguments Raise {A} e.
Arguments Exit {A} code.

Definition M (A : Type) : Type := world -> list event * outcome A.

Definition ret {A} (a : A) : M A := fun _ => ([], Ret a).

Definition bind {A B} (m : M A) (k : A -> M B) : M B :=
  fun w =>
    match m w with
    | (t, Ret a) => let (t', o) := k a w in ((t ++ t')%list, o)
    | (t, Raise e) => (t, Raise e)
    | (t, Exit c) => (t, Exit c)
    end.

Declare Scope py_scope.
Delimit Scope py_scope with py.
Notation "x <- c ;; k" := (bind c (fun x => k))
  (at level 100, c at next level, right associativity) : py_scope.
Notation "c ;; k" := (bind c (fun _ => k))
  (at level 100, right associativity) : py_scope.
Local Open Scope py_scope.

Definition emit (e : event) : M unit := fun _ => ([e], Ret tt).
Definition print (m : message) : M unit := emit (EPrint m).
Definition logger_info (m : message) : M unit := emit (ELog INFO m).
Definition logger_error (m : message) : M unit := emit (ELog ERROR m).

Definition raise {A} (e : exn) : M A := fun _ => ([], Raise e).

(** [sys.exit(code)]: [SystemExit] is not an [Exception], so no handler
    of the scripts catches it. *)
Definition sys_exit {A} (code : Z) : M A := fun _ => ([], Exit code).

Definition os_environ_get (k : string) : M (option string) :=
  fun w => ([], Ret (environ w k)).

(** [try: body except c1: h1 except c2: h2 ...]: the first clause whose
    class the exception is an instance of handles it. *)
Fixpoint dispatch {A} (hs : list (exn_class * (exn -> M A))) (e : exn) : M A :=
  match hs with
  | [] => raise e
  | (c, h) :: hs' => if isinstance e c then h e else dispatch hs' e
  end.

Definition try_except {A} (m : M A) (hs : list (exn_class * (exn -> M A))) : M A :=
  fun w =>
    match m w with
    | (t, Raise e) => let (t', o) := dispatch hs e w in ((t ++ t')%list, o)
    | r => r
    end.

(** [requests.post] and [requests.get]. *)
Definition send (r : request) : M Response :=
  fun w =>
    ([EHttp r], match http w r with Reply x => Ret x | Fail e => Raise e end).

Definition requests_post (u : string) (h : list (string * header_value))
    (b : body) : M Response :=
  send {| method := POST; url := u; headers := h; payload := b |}.

Definition requests_get (u : string) (h : list (string * header_value)) : M Response :=
  send {| method := GET; url := u; headers := h; payload := NoBody |}.

(** [response.json()]. *)
Definition json (r : Response) : M value :=
  match decoded r with
  | Some v => ret v
  | None => raise (JSONDecodeError (text r))
  end.

(** [response.raise_for_status()]: raises for 4xx and 5xx. *)
Definition is_error_status (s : Z) : bool := (400 <=? s) && (s <? 600).

Definition raise_for_status (r : Response) : M unit :=
  if is_error_status (status_code r) then raise (HTTPError r) else ret tt.

(** [with open(path, 'rb') as f:], [f] standing for the bytes read. *)
Definition open_rb (path : string) : M string :=
  fun w =>
    match fs w path with
    | FileOk b => ([EOpen path], Ret b)
    | FileMissing => ([], Raise (FileNotFoundError path))
    | FileError m => ([], Raise (OSError m))
    end.

(** [x.get(k)] where [x] came out of [response.json()]: only a
    dictionary has the method. *)
Definition method_get (x : value) (k : string) : M value :=
  match x with
  | VDict d => ret (dict_get d k)
  | _ => raise (AttributeError "object has no attribute 'get'")
  end.

(** The number of characters of a string held as UTF-8 bytes: every
    byte counts but the continuation bytes, [10xxxxxx]. *)
Definition continuation_byte (c : ascii) : bool :=
  match c with
  | Ascii _ _ _ _ _ _ b6 b7 => b7 && negb b6
  end.

Fixpoint char_count (s : string) : nat :=
  match s with
  | EmptyString => O
  | String c s' => ((if continuation_byte c then 0 else 1) + char_count s')%nat
  end.

(** [len(x)]. *)
Definition len (x : value) : M Z :=
  match x with
  | VStr s => ret (Z.of_nat (char_count s))
  | VList l => ret (Z.of_nat (List.length l))
  | VDict d => ret (Z.of_nat (List.length d))
  | _ => raise (TypeError "object has no len()")
  end.

(** ** Observations on a run *)

Definition trace {A} (r : list event * outcome A) : list event := fst r.
Definition result {A} (r : list event * outcome A) : outcome A := snd r.

Definition requests_of (t : list event) : list request :=
  flat_map (fun e => match e with EHttp r => [r] | _ => [] end) t.

Definition starts_with_cross (m : message) : bool :=
  match m with
  | Lit s :: _ => String.prefix "❌" s
  | _ => false
  end.

(** A line that reports an error: a print that opens with the cross
    mark, or a record logged at level ERROR. *)
Definition reports_error (e : event) : bool :=
  match e with
  | EPrint m => starts_with_cross m
  | ELog ERROR _ => true
  | _ => false
  end.

Definition on_stdout (e : event) : bool :=
  match e with
  | ELog _ _ => false
  | _ => true
  end.

(** [err.response.text] in the handlers of [HTTPError]. *)
Definition err_response_text (err : exn) : string :=
  match err with
  | HTTPError r => text r
  | _ => ""
  end.

Definition nl : string := String (ascii_of_nat 10) "".
Definition dq : string := String (ascii_of_nat 34) "".

(** ** What the [__main__] blocks need

    [NameError] and [KeyError] are exceptions like the others; no
    handler of the scripts names them. *)

Definition NameError (name : string) : exn :=
  OtherException ("NameError: name '" ++ name ++ "' is not defined").

Definition KeyError (key : string) : exn :=
  OtherException ("KeyError: '" ++ key ++ "'").

(** [x[k]] for a string [k]: only a dictionary that holds the key
    answers. *)
Definition subscript (x : value) (k : string) : M value :=
  match x with
  | VDict d => if dict_mem d k then ret (dict_get d k) else raise (KeyError k)
  | VList _ => raise (TypeError "list indices must be integers or slices, not str")
  | VStr _ => raise (TypeError "string indices must be integers")
  | VNone | VBool _ | VInt _ | VFloat _ =>
      raise (TypeError "object is not subscriptable")
  end.

(** ** add_proof_to_control.py *)

Module AddProofToControl.

Definition CLIENT_ID : M (option string) := os_environ_get "CLIENT_ID".
Definition CLIENT_SECRET : M (option string) := os_environ_get "CLIENT_SECRET".

Definition CONTROLS_API_URL : string := "https://api.hyperproof.app/v1/controls".
Definition PROOF_API_URL : string := "https://api.hyperproof.app/v1/proof/".
Definition LABELS_API_URL : string := "https://api.hyperproof.app/v1/labels/".
Definition OAUTH_TOKEN_URL : string := "https://accounts.hyperproof.app/oauth/token".

Definition get_access_token (client_id client_secret : option string) : M value :=
  print [Lit "Attempting to fetch access token from "; FStr OAUTH_TOKEN_URL; Lit "..."] ;;
  let payload :=
    [("grant_type", Some "client_credentials");
     ("client_id", client_id);
     ("client_secret", client_secret)] in
  let headers := [("Content-Type", HLit "application/x-www-form-urlencoded")] in
  try_except
    (response <- requests_post OAUTH_TOKEN_URL headers (FormBody payload) ;;
     if status_code response =? 200 then
       (token_data <- json response ;;
        access_token <- method_get token_data "access_token" ;;
        if truthy access_token then
          (print [Lit "✅ Successfully obtained access token."] ;;
           ret access_token)
        else
          (print [Lit "❌ Error: 'access_token' not found in response from token URL."] ;;
           print [Lit "Response Body: "; FStr (text response)] ;;
           ret VNone))
     else
       (* the [if] has no [else]: control leaves the [try] and reaches
          the end of the function *)
       ret VNone)
    [ (CRequestException, fun e =>
         print [Lit "❌ A network error occurred while getting token: "; FExn e] ;;
         ret VNone);
      (CJSONDecodeError, fun e =>
         print [Lit "❌ Error: Failed to decode JSON response from token URL."] ;;
         print [Lit "Raw Response: ";
                FStr (match e with JSONDecodeError doc => doc | _ => "" end)] ;;
         ret VNone) ].

Definition add_proof (file_to_upload : string)
    (object_id object_type : option string) : M value :=
  client_id <- CLIENT_ID ;;
  client_secret <- CLIENT_SECRET ;;
  access_token <- get_access_token client_id client_secret ;;
  (if negb (truthy access_token) then
     (print [Lit "❌ Halting script: Could not obtain access token."] ;;
      sys_exit 1)
   else ret tt) ;;
  let headers :=
    [("Authorization", HBearer access_token);
     ("Accept", HLit "application/json")] in
  let data :=
    if truthy_arg object_id && truthy_arg object_type
    then [("objectId", object_id); ("objectType", object_type)]
    else [] in
  print [Lit nl; Lit "Attempting to upload proof file: "; FStr file_to_upload; Lit "..."] ;;
  try_except
    (response <-
       (f <- open_rb file_to_upload ;;
        print [Lit "open "; FStr file_to_upload; Lit " ........"] ;;
        let files_payload :=
          [("proof", {| filename := file_to_upload; content := f;
                        part_type := Some "application/json" |})] in
        response <- requests_post PROOF_API_URL headers
                      (MultipartBody files_payload data) ;;
        raise_for_status response ;;
        ret response) ;;
     logger_info [Lit "Successfully added proof"] ;;
     json response)
    [ (CFileNotFoundError, fun _ =>
         logger_error [Lit "File not found at path: "; FStr file_to_upload] ;;
         ret VNone);
      (CHTTPError, fun err =>
         logger_error [Lit "HTTP error occurred: "; FExn err; Lit " - ";
                       FStr (err_response_text err)] ;;
         ret VNone);
      (CException, fun e =>
         logger_error [Lit "An unexpected error occurred: "; FExn e] ;;
         ret VNone) ].

Definition add_proof_version (proof_id file_to_upload : string)
    (content_type : option string) : M value :=
  client_id <- CLIENT_ID ;;
  client_secret <- CLIENT_SECRET ;;
  access_token <- get_access_token client_id client_secret ;;
  (if negb (truthy access_token) then
     (print [Lit "❌ Halting script: Could not obtain access token."] ;;
      sys_exit 1)
   else ret tt) ;;
  let headers :=
    [("Authorization", HBearer access_token);
     ("Accept", HLit "application/json")] in
  let version_url := PROOF_API_URL ++ "/" ++ proof_id ++ "/versions" in
  print [Lit nl; Lit "Attempting to upload new version for proof "; FStr proof_id; Lit "..."] ;;
  print [Lit "File: "; FStr file_to_upload] ;;
  print [Lit "URL: "; FStr version_url] ;;
  try_except
    (response <-
       (f <- open_rb file_to_upload ;;
        let files_payload :=
          if truthy_arg content_type
          then [("proof", {| filename := file_to_upload; content := f;
                             part_type := content_type |})]
          else [("proof", {| filename := file_to_upload; content := f;
                             part_type := None |})] in
        response <- requests_post version_url headers
                      (MultipartBody files_payload []) ;;
        raise_for_status response ;;
        ret response) ;;
     logger_info [Lit "Successfully added new version for proof "; FStr proof_id] ;;
     json response)
    [ (CFileNotFoundError, fun _ =>
         logger_error [Lit "File not found at path: "; FStr file_to_upload] ;;
         ret VNone);
      (CHTTPError, fun err =>
         logger_error [Lit "HTTP error occurred: "; FExn err; Lit " - ";
                       FStr (err_response_text err)] ;;
         ret VNone);
      (CException, fun e =>
         logger_error [Lit "An unexpected error occurred: "; FExn e] ;;
         ret VNone) ].

Definition add_control_proof (control_id file_to_upload : string)
    (content_type : option string) : M value :=
  client_id <- CLIENT_ID ;;
  client_secret <- CLIENT_SECRET ;;
  access_token <- get_access_token client_id client_secret ;;
  (if negb (truthy access_token) then
     (print [Lit "❌ Halting script: Could not obtain access token."] ;;
      sys_exit 1)
   else ret tt) ;;
  let headers :=
    [("Authorization", HBearer access_token);
     ("Accept", HLit "application/json")] in
  let control_proof_url := CONTROLS_API_URL ++ "/" ++ control_id ++ "/proof" in
  print [Lit nl; Lit "Attempting to upload proof for control "; FStr control_id; Lit "..."] ;;
  print [Lit "File: "; FStr file_to_upload] ;;
  print [Lit "URL: "; FStr control_proof_url] ;;
  try_except
    (response <-
       (f <- open_rb file_to_upload ;;
        let files_payload :=
          if truthy_arg content_type
          then [("proof", {| filename := file_to_upload; content := f;
                             part_type := content_type |})]
          else [("proof", {| filename := file_to_upload; content := f;
                             part_type := None |})] in
        response <- requests_post control_proof_url headers
                      (MultipartBody files_payload []) ;;
        raise_for_status response ;;
        ret response) ;;
     logger_info [Lit "Successfully added proof to control "; FStr control_id] ;;
     json response)
    [ (CFileNotFoundError, fun _ =>
         logger_error [Lit "File not found at path: "; FStr file_to_upload] ;;
         ret VNone);
      (CHTTPError, fun err =>
         logger_error [Lit "HTTP error occurred: "; FExn err; Lit " - ";
                       FStr (err_response_text err)] ;;
         ret VNone);
      (CException, fun e =>
         logger_error [Lit "An unexpected error occurred: "; FExn e] ;;
         ret VNone) ].

Definition create_label (label_name description : string) : M value :=
  client_id <- CLIENT_ID ;;
  client_secret <- CLIENT_SECRET ;;
  access_token <- get_access_token client_id client_secret ;;
  (if negb (truthy access_token) then
     (print [Lit "❌ Halting script: Could not obtain access token."] ;;
      sys_exit 1)
   else ret tt) ;;
  let headers :=
    [("Authorization", HBearer access_token);
     ("Accept", HLit "application/json");
     ("Content-Type", HLit "application/json")] in
  let payload := [("name", label_name); ("description", description)] in
  print [Lit nl; Lit "Attempting to create label: "; FStr label_name; Lit "..."] ;;
  try_except
    (response <- requests_post LABELS_API_URL headers (JsonBody payload) ;;
     raise_for_status response ;;
     logger_info [Lit "Successfully created label"] ;;
     json response)
    [ (CHTTPError, fun err =>
         logger_error [Lit "HTTP error occurred: "; FExn err; Lit " - ";
                       FStr (err_response_text err)] ;;
         ret VNone);
      (CException, fun e =>
         logger_error [Lit "An unexpected error occurred: "; FExn e] ;;
         ret VNone) ].

Definition add_label_proof (label_id file_to_upload : string)
    (content_type : option string) : M value :=
  client_id <- CLIENT_ID ;;
  client_secret <- CLIENT_SECRET ;;
  access_token <- get_access_token client_id client_secret ;;
  (if negb (truthy access_token) then
     (print [Lit "❌ Halting script: Could not obtain access token."] ;;
      sys_exit 1)
   else ret tt) ;;
  let headers :=
    [("Authorization", HBearer access_token);
     ("Accept", HLit "application/json")] in
  let label_proof_url := LABELS_API_URL ++ "/" ++ label_id ++ "/proof" in
  print [Lit nl; Lit "Attempting to upload proof for label "; FStr label_id; Lit "..."] ;;
  print [Lit "File: "; FStr file_to_upload] ;;
  print [Lit "URL: "; FStr label_proof_url] ;;
  try_except
    (response <-
       (f <- open_rb file_to_upload ;;
        let files_payload :=
          if truthy_arg content_type
          then [("proof", {| filename := file_to_upload; content := f;
                             part_type := content_type |})]
          else [("proof", {| filename := file_to_upload; content := f;
                             part_type := None |})] in
        response <- requests_post label_proof_url headers
                      (MultipartBody files_payload []) ;;
        raise_for_status response ;;
        ret response) ;;
     logger_info [Lit "Successfully added proof to label "; FStr label_id] ;;
     json response)
    [ (CFileNotFoundError, fun _ =>
         logger_error [Lit "File not found at path: "; FStr file_to_upload] ;;
         ret VNone);
      (CHTTPError, fun err =>
         logger_error [Lit "HTTP error occurred: "; FExn err; Lit " - ";
                       FStr (err_response_text err)] ;;
         ret VNone);
      (CException, fun e =>
         logger_error [Lit "An unexpected error occurred: "; FExn e] ;;
         ret VNone) ].

Definition link_label_to_control (control_id label_id : string) : M value :=
  client_id <- CLIENT_ID ;;
  client_secret <- CLIENT_SECRET ;;
  access_token <- get_access_token client_id client_secret ;;
  (if negb (truthy access_token) then
     (print [Lit "❌ Halting script: Could not obtain access token."] ;;
      sys_exit 1)
   else ret tt) ;;
  let headers :=
    [("Authorization", HBearer access_token);
     ("Accept", HLit "application/json")] in
  let link_url := CONTROLS_API_URL ++ "/" ++ control_id ++ "/labels/" ++ label_id in
  print [Lit nl; Lit "Attempting to link label "; FStr label_id;
         Lit " to control "; FStr control_id; Lit "..."] ;;
  try_except
    (response <- requests_post link_url headers NoBody ;;
     raise_for_status response ;;
     logger_info [Lit "Successfully linked label to control "; FStr control_id] ;;
     ret (VBool true))
    [ (CHTTPError, fun err =>
         logger_error [Lit "HTTP error occurred: "; FExn err; Lit " - ";
                       FStr (err_response_text err)] ;;
         ret VNone);
      (CException, fun e =>
         logger_error [Lit "An unexpected error occurred: "; FExn e] ;;
         ret VNone) ].

(** The [__main__] block.  [py_str] is Python's [str], which formats the
    value interpolated in an f-string or handed to [print]; the block
    passes the label id it read from the answer on to functions that
    use it in f-strings only. *)
Section Main.
Variable py_str : value -> string.

Definition main : M unit :=
  let file_path := "pony.png" in
  let new_label_name := "Sophia Shared Evidence" in
  let new_label_desc := "All evidence collected for the Q4 2025 audit" in
  label_response <- create_label new_label_name new_label_desc ;;
  (* [new_label_id] is assigned under the [if] only *)
  new_label_id <-
    (if truthy label_response
     then (v <- subscript label_response "id" ;; ret (Some v))
     else ret None) ;;
  label_id <-
    match new_label_id with
    | Some v => ret (py_str v)
    | None => raise (NameError "new_label_id")
    end ;;
  label_proof_response <- add_label_proof label_id file_path None ;;
  let control_id_A := "e0683e57-b3d1-11f0-a50c-5a2610f6476" in
  let control_id_B := "66487523-b549-11f0-a533-66e583c0e6b" in
  link_label_to_control control_id_A label_id ;;
  link_label_to_control control_id_B label_id ;;
  ret tt.

End Main.

End AddProofToControl.

(** ** call_hyperproof_api.py *)

Module CallHyperproofApi.

Definition CLIENT_ID : M (option string) := os_environ_get "CLIENT_ID".
Definition CLIENT_SECRET : M (option string) := os_environ_get "CLIENT_SECRET".

Definition CONTROLS_API_URL : string := "https://api.hyperproof.app/v1/controls/".
Definition PROOF_API_URL : string := "https://api.hyperproof.app/v1/proof/".
Definition OAUTH_TOKEN_URL : string := "https://accounts.hyperproof.app/oauth/token".

Definition get_access_token (client_id client_secret : option string) : M value :=
  print [Lit "Attempting to fetch access token from "; FStr OAUTH_TOKEN_URL; Lit "..."] ;;
  let payload :=
    [("grant_type", Some "client_credentials");
     ("client_id", client_id);
     ("client_secret", client_secret)] in
  let headers := [("Content-Type", HLit "application/x-www-form-urlencoded")] in
  try_except
    (response <- requests_post OAUTH_TOKEN_URL headers (FormBody payload) ;;
     if status_code response =? 200 then
       (token_data <- json response ;;
        access_token <- method_get token_data "access_token" ;;
        if truthy access_token then
          (print [Lit "✅ Successfully obtained access token."] ;;
           ret access_token)
        else
          (print [Lit "❌ Error: 'access_token' not found in response from token URL."] ;;
           print [Lit "Response Body: "; FStr (text response)] ;;
           ret VNone))
     else
       (* the [if] has no [else]: control leaves the [try] and reaches
          the end of the function *)
       ret VNone)
    [ (CRequestException, fun e =>
         print [Lit "❌ A network error occurred while getting token: "; FExn e] ;;
         ret VNone);
      (CJSONDecodeError, fun e =>
         print [Lit "❌ Error: Failed to decode JSON response from token URL."] ;;
         print [Lit "Raw Response: ";
                FStr (match e with JSONDecodeError doc => doc | _ => "" end)] ;;
         ret VNone) ].

Definition fetch_hyperproof_controls : M value :=
  client_id <- CLIENT_ID ;;
  client_secret <- CLIENT_SECRET ;;
  (if negb (truthy_arg client_id) || negb (truthy_arg client_secret) then
     (print [Lit "-----------------------------------------------------------------"] ;;
      print [Lit "Error: 'CLIENT_ID' or 'CLIENT_SECRET' environment variable is not set."] ;;
      print [Lit nl; Lit "Please create a .env file in this directory with:"] ;;
      print [Lit "  CLIENT_ID="; Lit dq; Lit "your_client_id_here"; Lit dq] ;;
      print [Lit "  CLIENT_SECRET="; Lit dq; Lit "your_client_secret_here"; Lit dq] ;;
      print [Lit nl; Lit "Then run the script again."] ;;
      print [Lit "-----------------------------------------------------------------"] ;;
      sys_exit 1)
   else ret tt) ;;
  access_token <- get_access_token client_id client_secret ;;
  (if negb (truthy access_token) then
     (print [Lit "❌ Halting script: Could not obtain access token."] ;;
      sys_exit 1)
   else ret tt) ;;
  let headers :=
    [("Authorization", HBearer access_token);
     ("Content-Type", HLit "application/json")] in
  print [Lit nl; Lit "Attempting to fetch controls from "; FStr CONTROLS_API_URL; Lit "..."] ;;
  try_except
    (response <- requests_get CONTROLS_API_URL headers ;;
     if status_code response =? 200 then
       (controls_data <- json response ;;
        print [Lit "✅ Success! Successfully fetched controls."] ;;
        print [Lit "--- Controls Data ---"] ;;
        print [FDumps controls_data] ;;
        match controls_data with
        | VList l =>
            n <- len controls_data ;;
            print [Lit nl; Lit "Found "; FInt n; Lit " controls."]
        | VDict d =>
            if dict_mem d "data" then
              (n <- len (dict_get d "data") ;;
               print [Lit nl; Lit "Found "; FInt n; Lit " controls on this page."])
            else ret tt
        | _ => ret tt
        end)
     else
       (print [Lit "❌ Error: API returned status code "; FInt (status_code response)] ;;
        print [Lit "Response Body: "; FStr (text response)] ;;
        if (status_code response =? 401) || (status_code response =? 403) then
          (print [Lit nl; Lit "Hint: This often means your access token is invalid or expired,"] ;;
           print [Lit "or the client credentials do not have permission for this API."])
        else ret tt))
    [ (CRequestException, fun e =>
         print [Lit "❌ A network error occurred: "; FExn e]);
      (CJSONDecodeError, fun e =>
         print [Lit "❌ Error: Failed to decode JSON response from the server."] ;;
         print [Lit "Raw Response: ";
                FStr (match e with JSONDecodeError doc => doc | _ => "" end)]);
      (CException, fun e =>
         print [Lit "❌ An unexpected error occurred: "; FExn e]) ] ;;
  (* no [return] statement: the function yields [None] *)
  ret VNone.

Definition add_proof (file_to_upload : string)
    (object_id object_type : option string) : M value :=
  client_id <- CLIENT_ID ;;
  client_secret <- CLIENT_SECRET ;;
  access_token <- get_access_token client_id client_secret ;;
  (if negb (truthy access_token) then
     (print [Lit "❌ Halting script: Could not obtain access token."] ;;
      sys_exit 1)
   else ret tt) ;;
  let headers :=
    [("Authorization", HBearer access_token);
     ("Accept", HLit "application/json")] in
  let data :=
    if truthy_arg object_id && truthy_arg object_type
    then [("objectId", object_id); ("objectType", object_type)]
    else [] in
  print [Lit nl; Lit "Attempting to upload proof file: "; FStr file_to_upload; Lit "..."] ;;
  try_except
    (response <-
       (f <- open_rb file_to_upload ;;
        print [Lit "open "; FStr file_to_upload; Lit " ........"] ;;
        let files_payload :=
          [("proof", {| filename := file_to_upload; content := f;
                        part_type := Some "application/json" |})] in
        response <- requests_post PROOF_API_URL headers
                      (MultipartBody files_payload data) ;;
        raise_for_status response ;;
        ret response) ;;
     logger_info [Lit "Successfully added proof"] ;;
     json response)
    [ (CFileNotFoundError, fun _ =>
         logger_error [Lit "File not found at path: "; FStr file_to_upload] ;;
         ret VNone);
      (CHTTPError, fun err =>
         logger_error [Lit "HTTP error occurred: "; FExn err; Lit " - ";
                       FStr (err_response_text err)] ;;
         ret VNone);
      (CException, fun e =>
         logger_error [Lit "An unexpected error occurred: "; FExn e] ;;
         ret VNone) ].

Definition add_proof_version (proof_id file_to_upload : string)
    (content_type : option string) : M value :=
  client_id <- CLIENT_ID ;;
  client_secret <- CLIENT_SECRET ;;
  access_token <- get_access_token client_id client_secret ;;
  (if negb (truthy access_token) then
     (print [Lit "❌ Halting script: Could not obtain access token."] ;;
      sys_exit 1)
   else ret tt) ;;
  let headers :=
    [("Authorization", HBearer access_token);
     ("Accept", HLit "application/json")] in
  let version_url := PROOF_API_URL ++ "/" ++ proof_id ++ "/versions" in
  print [Lit nl; Lit "Attempting to upload new version for proof "; FStr proof_id; Lit "..."] ;;
  print [Lit "File: "; FStr file_to_upload] ;;
  print [Lit "URL: "; FStr version_url] ;;
  try_except
    (response <-
       (f <- open_rb file_to_upload ;;
        let files_payload :=
          if truthy_arg content_type
          then [("proof", {| filename := file_to_upload; content := f;
                             part_type := content_type |})]
          else [("proof", {| filename := file_to_upload; content := f;
                             part_type := None |})] in
        response <- requests_post version_url headers
                      (MultipartBody files_payload []) ;;
        raise_for_status response ;;
        ret response) ;;
     logger_info [Lit "Successfully added new version for proof "; FStr proof_id] ;;
     json response)
    [ (CFileNotFoundError, fun _ =>
         logger_error [Lit "File not found at path: "; FStr file_to_upload] ;;
         ret VNone);
      (CHTTPError, fun err =>
         logger_error [Lit "HTTP error occurred: "; FExn err; Lit " - ";
                       FStr (err_response_text err)] ;;
         ret VNone);
      (CException, fun e =>
         logger_error [Lit "An unexpected error occurred: "; FExn e] ;;
         ret VNone) ].

Definition add_control_proof (control_id file_to_upload : string)
    (content_type : option string) : M value :=
  client_id <- CLIENT_ID ;;
  client_secret <- CLIENT_SECRET ;;
  access_token <- get_access_token client_id client_secret ;;
  (if negb (truthy access_token) then
     (print [Lit "❌ Halting script: Could not obtain access token."] ;;
      sys_exit 1)
   else ret tt) ;;
  let headers :=
    [("Authorization", HBearer access_token);
     ("Accept", HLit "application/json")] in
  let control_proof_url := CONTROLS_API_URL ++ "/" ++ control_id ++ "/proof" in
  print [Lit nl; Lit "Attempting to upload proof for control "; FStr control_id; Lit "..."] ;;
  print [Lit "File: "; FStr file_to_upload] ;;
  print [Lit "URL: "; FStr control_proof_url] ;;
  try_except
    (response <-
       (f <- open_rb file_to_upload ;;
        let files_payload :=
          if truthy_arg content_type
          then [("proof", {| filename := file_to_upload; content := f;
                             part_type := content_type |})]
          else [("proof", {| filename := file_to_upload; content := f;
                             part_type := None |})] in
        response <- requests_post control_proof_url headers
                      (MultipartBody files_payload []) ;;
        raise_for_status response ;;
        ret response) ;;
     logger_info [Lit "Successfully added proof to control "; FStr control_id] ;;
     json response)
    [ (CFileNotFoundError, fun _ =>
         logger_error [Lit "File not found at path: "; FStr file_to_upload] ;;
         ret VNone);
      (CHTTPError, fun err =>
         logger_error [Lit "HTTP error occurred: "; FExn err; Lit " - ";
                       FStr (err_response_text err)] ;;
         ret VNone);
      (CException, fun e =>
         logger_error [Lit "An unexpected error occurred: "; FExn e] ;;
         ret VNone) ].

(** The [__main__] block; [py_str] is Python's [str], applied by
    [print]. *)
Section Main.
Variable py_str : value -> string.

Definition main : M unit :=
  print [Lit "----------------"] ;;
  let file_path := "enriched_evidence.json" in
  let existing_proof_id := "c4079229-b565-11f0-988f-c65ac798dbd" in
  version_response <- add_proof_version existing_proof_id file_path None ;;
  print [FStr (py_str version_response)].

End Main.

End CallHyperproofApi.

(** ** Vocabulary of the statements *)

(** The two scripts. *)
Inductive script : Type := add_proof_to_control_py | call_hyperproof_api_py.

(** The upload, create and link operations, with their arguments. *)
Inductive call : Type :=
| AddProof (s : script) (file_to_upload : string) (object_id object_type : option string)
| AddProofVersion (s : script) (proof_id file_to_upload : string) (content_type : option string)
| AddControlProof (s : script) (control_id file_to_upload : string) (content_type : option string)
| CreateLabel (label_name description : string)
| AddLabelProof (label_id file_to_upload : string) (content_type : option string)
| LinkLabelToControl (control_id label_id : string).

Definition run_call (c : call) : M value :=
  match c with
  | AddProof add_proof_to_control_py f i t => AddProofToControl.add_proof f i t
  | AddProof call_hyperproof_api_py f i t => CallHyperproofApi.add_proof f i t
  | AddProofVersion add_proof_to_control_py p f ct => AddProofToControl.add_proof_version p f ct
  | AddProofVersion call_hyperproof_api_py p f ct => CallHyperproofApi.add_proof_version p f ct
  | AddControlProof add_proof_to_control_py c f ct => AddProofToControl.add_control_proof c f ct
  | AddControlProof call_hyperproof_api_py c f ct => CallHyperproofApi.add_control_proof c f ct
  | CreateLabel n d => AddProofToControl.create_label n d
  | AddLabelProof l f ct => AddProofToControl.add_label_proof l f ct
  | LinkLabelToControl c l => AddProofToControl.link_label_to_control c l
  end.

(** The local file an operation reads, if any. *)
Definition file_of (c : call) : option string :=
  match c with
  | AddProof _ f _ _ | AddProofVersion _ _ f _ | AddControlProof _ _ f _
  | AddLabelProof _ f _ => Some f
  | CreateLabel _ _ | LinkLabelToControl _ _ => None
  end.

(** Token acquisition as every operation starts it: with the credentials
    found in the environment. *)
Definition acquire (w : world) : list event * outcome value :=
  AddProofToControl.get_access_token (environ w "CLIENT_ID") (environ w "CLIENT_SECRET") w.

Definition token_request (client_id client_secret : option string) : request :=
  {| method := POST;
     url := AddProofToControl.OAUTH_TOKEN_URL;
     headers := [("Content-Type", HLit "application/x-www-form-urlencoded")];
     payload := FormBody [("grant_type", Some "client_credentials");
                          ("client_id", client_id);
                          ("client_secret", client_secret)] |}.




(** [a] was passed and is not the empty string. *)
Definition provided (a : option string) : Prop :=
  exists s, a = Some s /\ s <> "".

(** ** URLs *)

Fixpoint drop (n : nat) (s : string) : string :=
  match n, s with
  | O, _ => s
  | S n', String _ s' => drop n' s'
  | S _, EmptyString => EmptyString
  end.

(** What follows the first ["://"]. *)
Fixpoint after_scheme (s : string) : string :=
  match s with
  | EmptyString => EmptyString
  | String _ s' => if String.prefix "://" s then drop 3 s else after_scheme s'
  end.

(** The suffix that starts at the first ['/']. *)
Fixpoint from_slash (s : string) : string :=
  match s with
  | EmptyString => EmptyString
  | String c s' => if (c =? "/")%char then s else from_slash s'
  end.

(** The path of an absolute URL: what follows scheme and host. *)
Definition url_path (u : string) : string := from_slash (after_scheme u).

Fixpoint has_double_slash (s : string) : bool :=
  match s with
  | String a (String b _ as s') =>
      ((a =? "/")%char && (b =? "/")%char) || has_double_slash s'
  | _ => false
  end.

(** An identifier made of one path segment: not empty, no ['/']. *)
Fixpoint no_slash (s : string) : bool :=
  match s with
  | EmptyString => true
  | String c s' => negb (c =? "/")%char && no_slash s'
  end.

Definition segment (s : string) : bool :=
  negb (s =? "")%string && no_slash s.

(** ** Observations on requests *)

Fixpoint header (k : string) (h : list (string * header_value)) : option header_value :=
  match h with
  | [] => None
  | (k', v) :: h' => if (k' =? k)%string then Some v else header k h'
  end.

Definition file_parts (r : request) : list (string * file_part) :=
  match payload r with
  | MultipartBody files _ => files
  | _ => []
  end.

Definition form_fields (r : request) : list (string * option string) :=
  match payload r with
  | MultipartBody _ data => data
  | FormBody data => data
  | _ => []
  end.

Definition is_multipart (r : request) : bool :=
  match payload r with
  | MultipartBody _ _ => true
  | _ => false
  end.

(** ** Some worlds *)

Definition token_reply (tok : string) : Response :=
  {| status_code := 200;
     text := "{access_token: ...}";
     decoded := Some (VDict [("access_token", VStr tok); ("token_type", VStr "Bearer")]) |}.

Definition created_reply : Response :=
  {| status_code := 201;
     text := "{id: p-1}";
     decoded := Some (VDict [("id", VStr "p-1")]) |}.

Definition status_reply (code : Z) : Response :=
  {| status_code := code; text := "error"; decoded := None |}.

Definition credentials (k : string) : option string :=
  if (k =? "CLIENT_ID")%string then Some "my-client"
  else if (k =? "CLIENT_SECRET")%string then Some "my-secret"
  else None.

(** Two answers of the controls endpoint. *)
Definition controls_page : Response :=
  {| status_code := 200; text := "{data: [...]}";
     decoded := Some (VDict [("data", VList [VStr "c1"; VStr "c2"; VStr "c3"])]) |}.

Definition controls_count_only : Response :=
  {| status_code := 200; text := "{data: 3}";
     decoded := Some (VDict [("data", VInt 3)]) |}.

(** Credentials set, every file readable, the token endpoint hands out a
    token and every other endpoint answers [other]. *)
Definition world_with (other : reply) : world :=
  {| environ := credentials;
     http := fun r =>
       if (url r =? AddProofToControl.OAUTH_TOKEN_URL)%string
       then Reply (token_reply "tok-1")
       else other;
     fs := fun _ => FileOk "bytes" |}.

Definition world_ok : world := world_with (Reply created_reply).

(** The same remote, no file on disk. *)
Definition world_no_file : world :=
  {| environ := credentials;
     http := http world_ok;
     fs := fun _ => FileMissing |}.

(** Credentials set, every endpoint answers with status [code]. *)
Definition world_status (code : Z) : world :=
  {| environ := credentials;
     http := fun _ => Reply (status_reply code);
     fs := fun _ => FileOk "bytes" |}.

(** No credentials in the environment; the token endpoint refuses. *)
Definition world_no_credentials : world :=
  {| environ := fun _ => None;
     http := fun _ => Reply (status_reply 401);
     fs := fun _ => FileOk "bytes" |}.

(** ** The request of each operation, in closed form

    What [run_call_requests] below finds in the traces: [tok] is the
    token obtained, [bytes] the content of the file read. *)

Definition bearer_headers (tok : value) : list (string * header_value) :=
  [("Authorization", HBearer tok); ("Accept", HLit "application/json")].

Definition proof_part (file : string) (bytes : string) (ty : option string)
  : list (string * file_part) :=
  [("proof", {| filename := file; content := bytes; part_type := ty |})].

Definition override (content_type : option string) : option string :=
  if truthy_arg content_type then content_type else None.

Definition controls_base (s : script) : string :=
  match s with
  | add_proof_to_control_py => AddProofToControl.CONTROLS_API_URL
  | call_hyperproof_api_py => CallHyperproofApi.CONTROLS_API_URL
  end.

Definition action_request (c : call) (tok : value) (bytes : string) : request :=
  match c with
  | AddProof _ f i t =>
      {| method := POST; url := "https://api.hyperproof.app/v1/proof/";
         headers := bearer_headers tok;
         payload := MultipartBody (proof_part f bytes (Some "application/json"))
                      (if truthy_arg i && truthy_arg t
                       then [("objectId", i); ("objectType", t)] else []) |}
  | AddProofVersion _ p f ct =>
      {| method := POST;
         url := "https://api.hyperproof.app/v1/proof/" ++ "/" ++ p ++ "/versions";
         headers := bearer_headers tok;
         payload := MultipartBody (proof_part f bytes (override ct)) [] |}
  | AddControlProof s c f ct =>
      {| method := POST;
         url := controls_base s ++ "/" ++ c ++ "/proof";
         headers := bearer_headers tok;
         payload := MultipartBody (proof_part f bytes (override ct)) [] |}
  | CreateLabel n d =>
      {| method := POST; url := "https://api.hyperproof.app/v1/labels/";
         headers := bearer_headers tok ++ [("Content-Type", HLit "application/json")];
         payload := JsonBody [("name", n); ("description", d)] |}
  | AddLabelProof l f ct =>
      {| method := POST;
         url := "https://api.hyperproof.app/v1/labels/" ++ "/" ++ l ++ "/proof";
         headers := bearer_headers tok;
         payload := MultipartBody (proof_part f bytes (override ct)) [] |}
  | LinkLabelToControl c l =>
      {| method := POST;
         url := "https://api.hyperproof.app/v1/controls" ++ "/" ++ c ++ "/labels/" ++ l;
         headers := bearer_headers tok;
         payload := NoBody |}
  end.

(** The file an operation reads is there, with content [bytes]. *)
Definition file_ready (w : world) (c : call) (bytes : string) : Prop :=
  match file_of c with
  | Some f => fs w f = FileOk bytes
  | None => True
  end.

(** ** More vocabulary *)

Definition returns_payload (c : call) : bool :=
  match c with
  | LinkLabelToControl _ _ => false
  | _ => true
  end.

Definition logged_at (l : level) (e : event) : bool :=
  match e, l with
  | ELog INFO _, INFO => true
  | ELog ERROR _, ERROR => true
  | _, _ => false
  end.


(** The request of [fetch_hyperproof_controls] for the controls. *)
Definition controls_request (tok : value) : request :=
  {| method := GET;
     url := "https://api.hyperproof.app/v1/controls/";
     headers := [("Authorization", HBearer tok);
                 ("Content-Type", HLit "application/json")];
     payload := NoBody |}.

(** ** Tactics

    Unfolding of the operations and case analysis on what the world
    answers. *)

Ltac token_unfold :=
  unfold acquire, AddProofToControl.get_access_token, token_request,
    bind, try_except, requests_post, send, print, emit in *;
  simpl in *.

Ltac token_cases w :=
  token_unfold;
  match goal with
  | |- context [http w ?r] =>
      let Hh := fresh "Hh" in
      destruct (http w r) as [x|e] eqn:Hh; simpl;
      [ let Hs := fresh "Hs" in
        destruct (status_code x =? 200) eqn:Hs; simpl;
        [ let Hd := fresh "Hd" in
          unfold json; destruct (decoded x) as [[| | | | | |d]|] eqn:Hd; simpl;
          try (destruct (truthy (dict_get d "access_token")) eqn:?; simpl)
        | ]
      | destruct e; simpl ]
  end.

Ltac op_unfold :=
  unfold acquire in *;
  cbv beta iota zeta delta
    [run_call
     AddProofToControl.add_proof CallHyperproofApi.add_proof
     AddProofToControl.add_proof_version CallHyperproofApi.add_proof_version
     AddProofToControl.add_control_proof CallHyperproofApi.add_control_proof
     AddProofToControl.create_label AddProofToControl.add_label_proof
     AddProofToControl.link_label_to_control
     CallHyperproofApi.fetch_hyperproof_controls
     AddProofToControl.CLIENT_ID AddProofToControl.CLIENT_SECRET
     CallHyperproofApi.CLIENT_ID CallHyperproofApi.CLIENT_SECRET
     bind os_environ_get];
  try change CallHyperproofApi.get_access_token
        with AddProofToControl.get_access_token.

Ltac body_unfold :=
  unfold try_except, open_rb, requests_post, requests_get, send,
    raise_for_status, json, len, raise, ret, print, logger_info,
    logger_error, emit, sys_exit;
  simpl.

(** One case split on what the world answers. *)
Ltac world_step w :=
  match goal with
  | |- context [fs w ?f] => destruct (fs w f) eqn:?
  | |- context [http w ?r] => destruct (http w r) eqn:?
  | |- context [is_error_status ?s] => destruct (is_error_status s) eqn:?
  | |- context [decoded ?r] => destruct (decoded r) eqn:?
  | |- context [if truthy_arg ?c then _ else _] => destruct (truthy_arg c) eqn:?
  end; simpl.

Ltac call_cases c :=
  destruct c as [[|] f oid oty|[|] pid f ct|[|] cid f ct|n d|lid f ct|cid lid].



Ltac fetch_step w :=
  first
    [ world_step w
    | match goal with
      | |- context [status_code ?r =? ?k] => destruct (status_code r =? k) eqn:?
      | |- context [match ?v with VNone => _ | _ => _ end] => destruct v
      | |- context [if dict_mem ?d ?k then _ else _] => destruct (dict_mem d k) eqn:?
      | |- context [match ?e with HTTPError _ => _ | _ => _ end] => destruct e
      end; simpl ].

(** [Hh] tells what the world answers to one request: find that request
    in the goal, whatever way it is written, and use [Hh]. *)
Ltac pin_request w Hh :=
  match type of Hh with
  | http w ?q' = _ =>
      match goal with
      | |- context [http w ?q] => change (http w q) with (http w q'); rewrite Hh
      end
  end; simpl.

Ltac split_override Hh :=
  simpl in Hh; unfold override in Hh;
  try match goal with
      | |- context [if truthy_arg ?a then _ else _] =>
          let E := fresh "E" in
          destruct (truthy_arg a) eqn:E; try rewrite E in Hh
      end;
  simpl.

Ltac fetch_run_at w H Ht Hi Hs Hh :=
  op_unfold; rewrite Hi, Hs; simpl; rewrite H, Ht; simpl; body_unfold;
  pin_request w Hh.

(** ** The monad's equations *)

Lemma requests_of_app (t1 t2 : list event) :
  requests_of (t1 ++ t2) = (requests_of t1 ++ requests_of t2)%list.
Proof. unfold requests_of. apply flat_map_app. Qed.

(** ** Token acquisition *)

(** The two copies of [get_access_token] are the same function. *)
Lemma get_access_token_same :
  CallHyperproofApi.get_access_token = AddProofToControl.get_access_token.
Proof. reflexivity. Qed.

(** Exactly one request is sent, whatever the answer: nothing is retried. *)
Lemma get_access_token_requests cid cs w :
  requests_of (trace (AddProofToControl.get_access_token cid cs w))
  = [token_request cid cs].
Proof. token_cases w; reflexivity. Qed.

(** Token acquisition never leaves the process. *)
Lemma get_access_token_no_exit cid cs w c :
  result (AddProofToControl.get_access_token cid cs w) <> Exit c.
Proof. token_cases w; discriminate. Qed.


(** A token comes back exactly on status 200 with a JSON object whose
    [access_token] entry passes the truth test. *)
Lemma get_access_token_success cid cs w v :
  (result (AddProofToControl.get_access_token cid cs w) = Ret v /\ truthy v = true)
  <->
  (exists r d, http w (token_request cid cs) = Reply r /\
               status_code r = 200 /\
               decoded r = Some (VDict d) /\
               dict_get d "access_token" = v /\
               truthy v = true).
Proof.
  split.
  - intros [H Hv].
    unfold token_request. revert H.
    token_cases w; intros H; inversion H; subst; try discriminate.
    exists x, d. rewrite Z.eqb_eq in Hs. auto.
  - intros (r & d & Hr & Hs & Hd & Hg & Hv). split; [|exact Hv].
    token_unfold. rewrite Hr. simpl.
    rewrite Hs. simpl. unfold json. rewrite Hd. simpl. rewrite Hg, Hv. reflexivity.
Qed.

(** A failure inside [requests] is reported and turned into [None]. *)
Lemma get_access_token_network_failure cid cs w e :
  http w (token_request cid cs) = Fail e ->
  isinstance e CRequestException = true ->
  result (AddProofToControl.get_access_token cid cs w) = Ret VNone /\
  existsb reports_error (trace (AddProofToControl.get_access_token cid cs w)) = true.
Proof.
  intros H He. token_unfold. rewrite H.
  destruct e; try discriminate; simpl; split; reflexivity.
Qed.

(** Status 200 with an object that lacks a usable [access_token]: reported. *)
Lemma get_access_token_missing_field cid cs w r d :
  http w (token_request cid cs) = Reply r ->
  status_code r = 200 ->
  decoded r = Some (VDict d) ->
  truthy (dict_get d "access_token") = false ->
  result (AddProofToControl.get_access_token cid cs w) = Ret VNone /\
  existsb reports_error (trace (AddProofToControl.get_access_token cid cs w)) = true.
Proof.
  intros H Hs Hd Hg. token_unfold. rewrite H. simpl. rewrite Hs. simpl.
  unfold json. rewrite Hd. simpl. rewrite Hg. simpl. split; reflexivity.
Qed.

(** Status 200 with a body that is not JSON: reported. *)
Lemma get_access_token_malformed_json cid cs w r :
  http w (token_request cid cs) = Reply r ->
  status_code r = 200 ->
  decoded r = None ->
  result (AddProofToControl.get_access_token cid cs w) = Ret VNone /\
  existsb reports_error (trace (AddProofToControl.get_access_token cid cs w)) = true.
Proof.
  intros H Hs Hd. token_unfold. rewrite H. simpl. rewrite Hs. simpl.
  unfold json. rewrite Hd. simpl. split; reflexivity.
Qed.

(** Status 200 with JSON that is not an object: [.get] does not exist,
    the [AttributeError] matches no handler and leaves the function. *)
Lemma get_access_token_non_object cid cs w r v :
  http w (token_request cid cs) = Reply r ->
  status_code r = 200 ->
  decoded r = Some v ->
  (forall d, v <> VDict d) ->
  exists m, result (AddProofToControl.get_access_token cid cs w)
            = Raise (AttributeError m).
Proof.
  intros H Hs Hd Hv. token_unfold. rewrite H. simpl. rewrite Hs. simpl.
  unfold json. rewrite Hd. simpl.
  destruct v; simpl; try (eexists; reflexivity).
  exfalso. exact (Hv d eq_refl).
Qed.

(** Any other status: [None] comes back and nothing at all is reported,
    the trace holds the opening line and the request only. *)
Lemma get_access_token_other_status cid cs w r :
  http w (token_request cid cs) = Reply r ->
  status_code r <> 200 ->
  AddProofToControl.get_access_token cid cs w
  = ([EPrint [Lit "Attempting to fetch access token from ";
              FStr AddProofToControl.OAUTH_TOKEN_URL; Lit "..."];
      EHttp (token_request cid cs)],
     Ret VNone).
Proof.
  intros H Hs. token_unfold. rewrite H. simpl.
  apply Z.eqb_neq in Hs. rewrite Hs. reflexivity.
Qed.

(** C1 (evaluation at the failing input): the token endpoint answers 401;
    [get_access_token] returns [None], and no line of its output reports
    an error.  Both copies behave alike. *)
Theorem get_access_token_401_reports_nothing :
  let run := AddProofToControl.get_access_token
               (Some "my-client") (Some "my-secret") (world_status 401) in
  let run' := CallHyperproofApi.get_access_token
               (Some "my-client") (Some "my-secret") (world_status 401) in
  result run = Ret VNone /\
  existsb reports_error (trace run) = false /\
  run' = run.
Proof. repeat split; reflexivity. Qed.

(** ** The operations *)


(** With a token no operation raises or exits. *)
Lemma run_call_returns w c t tok :
  acquire w = (t, Ret tok) -> truthy tok = true ->
  exists v, result (run_call c w) = Ret v.
Proof.
  intros H Ht.
  call_cases c; op_unfold; rewrite H, Ht; simpl; body_unfold;
    repeat world_step w;
    try (match goal with e : exn |- _ => destruct e end; simpl);
    eexists; reflexivity.
Qed.


Lemma acquire_requests w t o :
  acquire w = (t, o) ->
  requests_of t = [token_request (environ w "CLIENT_ID") (environ w "CLIENT_SECRET")].
Proof.
  intros H. change t with (trace (t, o)). rewrite <- H.
  apply get_access_token_requests.
Qed.

(** With a token and a readable file, every operation sends the token
    request and then its own request, once. *)
Lemma run_call_requests w c t tok bytes :
  acquire w = (t, Ret tok) -> truthy tok = true ->
  file_ready w c bytes ->
  requests_of (trace (run_call c w))
  = [token_request (environ w "CLIENT_ID") (environ w "CLIENT_SECRET");
     action_request c tok bytes].
Proof.
  intros H Ht Hf. pose proof (acquire_requests w t _ H) as Hreq.
  unfold file_ready in Hf.
  call_cases c; simpl in Hf; op_unfold; rewrite H, Ht; simpl; body_unfold;
    try rewrite Hf; simpl; unfold override;
    repeat world_step w;
    try (match goal with e : exn |- _ => destruct e end; simpl);
    rewrite requests_of_app, Hreq; reflexivity.
Qed.




(** ** The requests on the wire *)

Lemma truthy_arg_provided (a : option string) :
  truthy_arg a = true <-> provided a.
Proof.
  unfold provided. destruct a as [s|]; simpl.
  - destruct (String.eqb_spec s ""); simpl; split.
    + discriminate.
    + intros (s' & E & Hs). inversion E. subst. contradiction.
    + intros _. exists s. auto.
    + reflexivity.
  - split; [discriminate | intros (s & E & _); discriminate].
Qed.

Lemma acquire_split w tok :
  result (acquire w) = Ret tok -> exists t, acquire w = (t, Ret tok).
Proof.
  destruct (acquire w) as [t o]. simpl. intros ->. exists t. reflexivity.
Qed.

(** C9: the request [add_proof] sends carries the form fields [objectId]
    and [objectType] exactly when both arguments were passed and neither
    is empty; otherwise it carries no form field at all.  Both copies. *)
Theorem add_proof_object_fields (s : script) (w : world) (file_to_upload : string)
    (object_id object_type : option string) (tok : value) (bytes : string) :
  result (acquire w) = Ret tok -> truthy tok = true ->
  fs w file_to_upload = FileOk bytes ->
  exists req,
    requests_of (trace (run_call (AddProof s file_to_upload object_id object_type) w))
    = [token_request (environ w "CLIENT_ID") (environ w "CLIENT_SECRET"); req] /\
    method req = POST /\
    url req = "https://api.hyperproof.app/v1/proof/" /\
    is_multipart req = true /\
    (provided object_id /\ provided object_type ->
       form_fields req = [("objectId", object_id); ("objectType", object_type)]) /\
    (~ (provided object_id /\ provided object_type) -> form_fields req = []).
Proof.
  intros Hr Ht Hf. destruct (acquire_split w tok Hr) as [t H].
  eexists. split.
  - apply (run_call_requests w _ t tok bytes H Ht). exact Hf.
  - simpl. repeat split.
    + intros [Hi Ho]. apply truthy_arg_provided in Hi, Ho. rewrite Hi, Ho. reflexivity.
    + intros Hn.
      destruct (truthy_arg object_id) eqn:Hi; [|reflexivity].
      destruct (truthy_arg object_type) eqn:Ho; [|reflexivity].
      exfalso. apply Hn. split; apply truthy_arg_provided; assumption.
Qed.

Lemma add_proof_object_fields_witness :
  exists req,
    requests_of (trace (run_call
      (AddProof call_hyperproof_api_py "enriched_evidence.json"
         (Some "66487523-b549-11f0-a533-66e583c0e6b3") (Some "controls")) world_ok))
    = [token_request (environ world_ok "CLIENT_ID") (environ world_ok "CLIENT_SECRET"); req] /\
    method req = POST /\
    url req = "https://api.hyperproof.app/v1/proof/" /\
    is_multipart req = true /\
    (provided (Some "66487523-b549-11f0-a533-66e583c0e6b3") /\ provided (Some "controls") ->
       form_fields req = [("objectId", Some "66487523-b549-11f0-a533-66e583c0e6b3");
                          ("objectType", Some "controls")]) /\
    (~ (provided (Some "66487523-b549-11f0-a533-66e583c0e6b3") /\ provided (Some "controls")) ->
       form_fields req = []).
Proof.
  apply (add_proof_object_fields call_hyperproof_api_py world_ok
           "enriched_evidence.json" _ _ (VStr "tok-1") "bytes");
    reflexivity.
Defined.

(** ** Content types *)

(** C5 (counterexample): [add_proof] is called without any MIME
    override, it has no such parameter, and the file part of its request
    is typed all the same. *)
Lemma add_proof_part_typed_without_override :
  ~ (forall r,
       In r (requests_of (trace (AddProofToControl.add_proof "pony.png" None None world_ok))) ->
       forall k p, In (k, p) (file_parts r) -> part_type p = None).
Proof.
  intros H.
  specialize (H (action_request (AddProof add_proof_to_control_py "pony.png" None None)
                   (VStr "tok-1") "bytes")).
  specialize (H (or_intror (or_introl eq_refl)) "proof" _ (or_introl eq_refl)).
  discriminate H.
Qed.

(** C5 (amended): [create_label] sends the header
    [Content-Type: application/json] and a JSON body; the four upload
    operations send multipart data without a [Content-Type] header;
    [add_proof_version], [add_control_proof] and [add_label_proof] leave
    the file part untyped unless a non-empty [content_type] is passed,
    which is then used as it is; [add_proof] always types the file part
    [application/json]. *)
Theorem content_types_on_the_wire (w : world) (c : call) (tok : value) (bytes : string) :
  result (acquire w) = Ret tok -> truthy tok = true ->
  file_ready w c bytes ->
  exists req,
    requests_of (trace (run_call c w))
    = [token_request (environ w "CLIENT_ID") (environ w "CLIENT_SECRET"); req] /\
    match c with
    | CreateLabel n d =>
        header "Content-Type" (headers req) = Some (HLit "application/json") /\
        payload req = JsonBody [("name", n); ("description", d)]
    | AddProof _ f _ _ =>
        header "Content-Type" (headers req) = None /\
        is_multipart req = true /\
        file_parts req = [("proof", {| filename := f; content := bytes;
                                       part_type := Some "application/json" |})]
    | AddProofVersion _ _ f ct | AddControlProof _ _ f ct | AddLabelProof _ f ct =>
        header "Content-Type" (headers req) = None /\
        is_multipart req = true /\
        exists ty,
          file_parts req = [("proof", {| filename := f; content := bytes;
                                         part_type := ty |})] /\
          (provided ct -> ty = ct) /\
          (~ provided ct -> ty = None)
    | LinkLabelToControl _ _ => header "Content-Type" (headers req) = None
    end.
Proof.
  intros Hr Ht Hf. destruct (acquire_split w tok Hr) as [t H].
  eexists. split; [exact (run_call_requests w c t tok bytes H Ht Hf)|].
  assert (Hov : forall ct, (provided ct -> override ct = ct) /\
                           (~ provided ct -> override ct = None)).
  { intros ct. unfold override. destruct (truthy_arg ct) eqn:E; split; intros Hp;
      try reflexivity.
    - exfalso. apply Hp. apply truthy_arg_provided. exact E.
    - apply truthy_arg_provided in Hp. congruence. }
  destruct c as [s f i o|s p f ct|s p f ct|n d|l f ct|p l]; simpl;
    repeat split; try (eexists; split; [reflexivity | apply Hov]).
Qed.

Lemma content_types_on_the_wire_witness :
  exists req,
    requests_of (trace (run_call
      (AddControlProof add_proof_to_control_py "C1" "proof_link.pdf" (Some "application/pdf"))
      world_ok))
    = [token_request (environ world_ok "CLIENT_ID") (environ world_ok "CLIENT_SECRET"); req] /\
    header "Content-Type" (headers req) = None /\
    is_multipart req = true /\
    exists ty,
      file_parts req = [("proof", {| filename := "proof_link.pdf"; content := "bytes";
                                     part_type := ty |})] /\
      (provided (Some "application/pdf") -> ty = Some "application/pdf") /\
      (~ provided (Some "application/pdf") -> ty = None).
Proof.
  apply (content_types_on_the_wire world_ok
           (AddControlProof add_proof_to_control_py "C1" "proof_link.pdf"
              (Some "application/pdf"))
           (VStr "tok-1") "bytes");
    reflexivity.
Defined.

(** ** Linking a label to a control *)

Lemma is_error_status_spec (s : Z) :
  is_error_status s = true <-> 400 <= s < 600.
Proof. unfold is_error_status. rewrite andb_true_iff, Z.leb_le, Z.ltb_lt. tauto. Qed.

(** C7 (counterexample): on a 404 answer [link_label_to_control] returns
    [None], which is not a boolean. *)
Lemma link_label_to_control_404_not_boolean :
  ~ (exists b,
       result (AddProofToControl.link_label_to_control
                 "e0683e57-b3d1-11f0-a50c-5a2610f6476" "L1"
                 (world_with (Reply (status_reply 404))))
       = Ret (VBool b)).
Proof. intros [b H]. discriminate H. Qed.

(** C7 (amended): with a token, [link_label_to_control] sends one POST
    without body to [<controls base>/{controlId}/labels/{labelId}]; it
    returns [True] when the answer is 2xx, more precisely exactly when an
    answer arrives whose status is outside 400..599, and [None], never
    [False], when the answer is 4xx or 5xx or the request raises. *)
Theorem link_label_to_control_result (w : world) (control_id label_id : string)
    (tok : value) :
  result (acquire w) = Ret tok -> truthy tok = true ->
  let req :=
    {| method := POST;
       url := "https://api.hyperproof.app/v1/controls" ++ "/" ++ control_id
              ++ "/labels/" ++ label_id;
       headers := [("Authorization", HBearer tok); ("Accept", HLit "application/json")];
       payload := NoBody |} in
  let run := AddProofToControl.link_label_to_control control_id label_id w in
  requests_of (trace run)
  = [token_request (environ w "CLIENT_ID") (environ w "CLIENT_SECRET"); req] /\
  (forall r, http w req = Reply r -> 200 <= status_code r < 300 ->
     result run = Ret (VBool true)) /\
  (forall r, http w req = Reply r -> 400 <= status_code r < 600 ->
     result run = Ret VNone) /\
  (forall e, http w req = Fail e -> result run = Ret VNone) /\
  (result run = Ret (VBool true) <->
     exists r, http w req = Reply r /\ ~ (400 <= status_code r < 600)) /\
  result run <> Ret (VBool false).
Proof.
  intros Hr Ht req run. destruct (acquire_split w tok Hr) as [t H].
  split.
  { exact (run_call_requests w (LinkLabelToControl control_id label_id) t tok ""
             H Ht I). }
  assert (Hrun : result run =
                 match http w req with
                 | Reply r => if is_error_status (status_code r)
                              then Ret VNone else Ret (VBool true)
                 | Fail _ => Ret VNone
                 end).
  { subst run req. op_unfold. rewrite H, Ht. simpl. body_unfold.
    repeat world_step w;
      try (match goal with e : exn |- _ => destruct e end; simpl);
      reflexivity. }
  rewrite Hrun. repeat split.
  - intros r Hh Hs. rewrite Hh.
    destruct (is_error_status (status_code r)) eqn:E; [|reflexivity].
    apply is_error_status_spec in E. lia.
  - intros r Hh Hs. rewrite Hh.
    apply is_error_status_spec in Hs. rewrite Hs. reflexivity.
  - intros e Hh. rewrite Hh. reflexivity.
  - destruct (http w req) as [r|e]; [|discriminate].
    destruct (is_error_status (status_code r)) eqn:E; [discriminate|].
    intros _. exists r. split; [reflexivity|].
    rewrite <- is_error_status_spec. congruence.
  - intros (r & Hh & Hs). rewrite Hh.
    destruct (is_error_status (status_code r)) eqn:E; [|reflexivity].
    apply is_error_status_spec in E. contradiction.
  - destruct (http w req) as [r|e]; [|discriminate].
    destruct (is_error_status (status_code r)); discriminate.
Qed.

Lemma link_label_to_control_result_witness :
  let w := world_with (Reply (status_reply 204)) in
  let req :=
    {| method := POST;
       url := "https://api.hyperproof.app/v1/controls/C1/labels/L1";
       headers := [("Authorization", HBearer (VStr "tok-1"));
                   ("Accept", HLit "application/json")];
       payload := NoBody |} in
  let run := AddProofToControl.link_label_to_control "C1" "L1" w in
  requests_of (trace run)
  = [token_request (environ w "CLIENT_ID") (environ w "CLIENT_SECRET"); req] /\
  (forall r, http w req = Reply r -> 200 <= status_code r < 300 ->
     result run = Ret (VBool true)) /\
  (forall r, http w req = Reply r -> 400 <= status_code r < 600 ->
     result run = Ret VNone) /\
  (forall e, http w req = Fail e -> result run = Ret VNone) /\
  (result run = Ret (VBool true) <->
     exists r, http w req = Reply r /\ ~ (400 <= status_code r < 600)) /\
  result run <> Ret (VBool false).
Proof.
  apply (link_label_to_control_result (world_with (Reply (status_reply 204)))
           "C1" "L1" (VStr "tok-1"));
    reflexivity.
Defined.

(** ** Fetching the controls *)

Lemma get_access_token_prints_only cid cs w :
  forallb on_stdout (trace (AddProofToControl.get_access_token cid cs w)) = true.
Proof. token_cases w; reflexivity. Qed.

(** Whatever the controls endpoint does, a run that got its token ends
    by returning [None], and writes nothing but printed lines. *)
Lemma fetch_after_token w t tok :
  truthy_arg (environ w "CLIENT_ID") = true ->
  truthy_arg (environ w "CLIENT_SECRET") = true ->
  acquire w = (t, Ret tok) -> truthy tok = true ->
  result (CallHyperproofApi.fetch_hyperproof_controls w) = Ret VNone /\
  forallb on_stdout (trace (CallHyperproofApi.fetch_hyperproof_controls w)) = true /\
  requests_of (trace (CallHyperproofApi.fetch_hyperproof_controls w))
  = [token_request (environ w "CLIENT_ID") (environ w "CLIENT_SECRET");
     {| method := GET; url := "https://api.hyperproof.app/v1/controls/";
        headers := [("Authorization", HBearer tok);
                    ("Content-Type", HLit "application/json")];
        payload := NoBody |}].
Proof.
  intros Hi Hs H Ht.
  pose proof (acquire_requests w t _ H) as Hreq.
  assert (Hout : forallb on_stdout t = true).
  { change t with (trace (t, Ret tok)). rewrite <- H. apply get_access_token_prints_only. }
  op_unfold. rewrite Hi, Hs. simpl. rewrite H, Ht. simpl. body_unfold.
  repeat fetch_step w;
    rewrite forallb_app, Hout, requests_of_app, Hreq; repeat split; reflexivity.
Qed.

(** A value returned by [fetch_hyperproof_controls] is [None]. *)
Lemma fetch_returns_no_payload w v :
  result (CallHyperproofApi.fetch_hyperproof_controls w) = Ret v -> v = VNone.
Proof.
  op_unfold.
  destruct (truthy_arg (environ w "CLIENT_ID")); simpl; [|discriminate].
  destruct (truthy_arg (environ w "CLIENT_SECRET")); simpl; [|discriminate].
  destruct (AddProofToControl.get_access_token _ _ w) as [t [tok|e|c]];
    try discriminate.
  destruct (truthy tok); simpl; [|discriminate].
  body_unfold.
  repeat fetch_step w; intros E; inversion E; reflexivity.
Qed.

(** C10 (counterexample): credentials are set and the token endpoint
    answers 500, a non-200 outcome; [fetch_hyperproof_controls] does not
    return [None], it leaves the process with status 1. *)
Lemma fetch_hyperproof_controls_exits_on_token_failure :
  ~ (result (CallHyperproofApi.fetch_hyperproof_controls (world_status 500)) = Ret VNone).
Proof. intros H. discriminate H. Qed.

(** What a run that got its token prints about the controls request:
    the data on a 200 answer that decodes, an error line in every other
    case. *)
Lemma fetch_emits w t tok :
  truthy_arg (environ w "CLIENT_ID") = true ->
  truthy_arg (environ w "CLIENT_SECRET") = true ->
  acquire w = (t, Ret tok) -> truthy tok = true ->
  match http w (controls_request tok) with
  | Reply r =>
      if status_code r =? 200 then
        match decoded r with
        | Some v =>
            In (EPrint [FDumps v]) (trace (CallHyperproofApi.fetch_hyperproof_controls w))
        | None =>
            existsb reports_error (trace (CallHyperproofApi.fetch_hyperproof_controls w))
            = true
        end
      else
        In (EPrint [Lit "❌ Error: API returned status code "; FInt (status_code r)])
           (trace (CallHyperproofApi.fetch_hyperproof_controls w)) /\
        In (EPrint [Lit "Response Body: "; FStr (text r)])
           (trace (CallHyperproofApi.fetch_hyperproof_controls w))
  | Fail _ =>
      existsb reports_error (trace (CallHyperproofApi.fetch_hyperproof_controls w)) = true
  end.
Proof.
  intros Hi Hs H Ht.
  destruct (http w (controls_request tok)) as [r|e] eqn:Hh.
  - destruct (status_code r =? 200) eqn:Hst.
    + destruct (decoded r) as [v|] eqn:Hd;
        op_unfold; rewrite Hi, Hs; simpl; rewrite H, Ht; simpl; body_unfold;
        pin_request w Hh; rewrite Hst, Hd; simpl.
      * destruct v; simpl; repeat fetch_step w;
          apply in_or_app; right; simpl; auto 12.
      * rewrite existsb_app. apply orb_true_iff. right. reflexivity.
    + op_unfold; rewrite Hi, Hs; simpl; rewrite H, Ht; simpl; body_unfold;
        pin_request w Hh; rewrite Hst; simpl.
      repeat fetch_step w; split; apply in_or_app; right; simpl; auto 12.
  - op_unfold; rewrite Hi, Hs; simpl; rewrite H, Ht; simpl; body_unfold;
      pin_request w Hh.
    destruct e; simpl; rewrite existsb_app; apply orb_true_iff; right; reflexivity.
Qed.

(** C10 (amended): [fetch_hyperproof_controls] never returns a payload.
    When a credential is missing or empty it leaves the process with
    status 1 and sends nothing; when the credentials are there and token
    acquisition yields [None] it leaves with status 1 after the token
    request.  Once a token was obtained it returns [None] for every
    outcome of the controls request, which it sends once; it prints the
    data on a 200 answer that decodes and an error line on any other
    status, on an exception and on a body that does not decode; and all
    it emits is printed, nothing is logged. *)
Theorem fetch_hyperproof_controls_returns_none (w : world) :
  (forall v, result (CallHyperproofApi.fetch_hyperproof_controls w) = Ret v -> v = VNone)
  /\
  (truthy_arg (environ w "CLIENT_ID") = false \/
   truthy_arg (environ w "CLIENT_SECRET") = false ->
     result (CallHyperproofApi.fetch_hyperproof_controls w) = Exit 1 /\
     requests_of (trace (CallHyperproofApi.fetch_hyperproof_controls w)) = [])
  /\
  (truthy_arg (environ w "CLIENT_ID") = true ->
   truthy_arg (environ w "CLIENT_SECRET") = true ->
   result (acquire w) = Ret VNone ->
     result (CallHyperproofApi.fetch_hyperproof_controls w) = Exit 1 /\
     requests_of (trace (CallHyperproofApi.fetch_hyperproof_controls w))
     = [token_request (environ w "CLIENT_ID") (environ w "CLIENT_SECRET")])
  /\
  (forall tok,
     truthy_arg (environ w "CLIENT_ID") = true ->
     truthy_arg (environ w "CLIENT_SECRET") = true ->
     result (acquire w) = Ret tok -> truthy tok = true ->
     result (CallHyperproofApi.fetch_hyperproof_controls w) = Ret VNone /\
     forallb on_stdout (trace (CallHyperproofApi.fetch_hyperproof_controls w)) = true /\
     requests_of (trace (CallHyperproofApi.fetch_hyperproof_controls w))
     = [token_request (environ w "CLIENT_ID") (environ w "CLIENT_SECRET");
        {| method := GET; url := "https://api.hyperproof.app/v1/controls/";
           headers := [("Authorization", HBearer tok);
                       ("Content-Type", HLit "application/json")];
           payload := NoBody |}] /\
     match http w (controls_request tok) with
     | Reply r =>
         if status_code r =? 200 then
           match decoded r with
           | Some v =>
               In (EPrint [FDumps v])
                  (trace (CallHyperproofApi.fetch_hyperproof_controls w))
           | None =>
               existsb reports_error
                 (trace (CallHyperproofApi.fetch_hyperproof_controls w)) = true
           end
         else
           In (EPrint [Lit "❌ Error: API returned status code "; FInt (status_code r)])
              (trace (CallHyperproofApi.fetch_hyperproof_controls w)) /\
           In (EPrint [Lit "Response Body: "; FStr (text r)])
              (trace (CallHyperproofApi.fetch_hyperproof_controls w))
     | Fail _ =>
         existsb reports_error
           (trace (CallHyperproofApi.fetch_hyperproof_controls w)) = true
     end).
Proof.
  split; [|split; [|split]].
  - apply fetch_returns_no_payload.
  - intros Hc. op_unfold.
    destruct (truthy_arg (environ w "CLIENT_ID")) eqn:E1;
      destruct (truthy_arg (environ w "CLIENT_SECRET")) eqn:E2; simpl;
      try (split; reflexivity).
    destruct Hc; discriminate.
  - intros Hi Hs Hr. destruct (acquire_split w _ Hr) as [t H].
    pose proof (acquire_requests w t _ H) as Hreq.
    op_unfold. rewrite Hi, Hs. simpl. rewrite H. simpl.
    rewrite requests_of_app, Hreq. split; reflexivity.
  - intros tok Hi Hs Hr Ht. destruct (acquire_split w tok Hr) as [t H].
    destruct (fetch_after_token w t tok Hi Hs H Ht) as (R & O & Q).
    repeat split; try assumption.
    exact (fetch_emits w t tok Hi Hs H Ht).
Qed.

Lemma fetch_hyperproof_controls_returns_none_witness :
  let w := world_with (Fail (RequestException "connection refused")) in
  let w0 := world_no_credentials in
  let w5 := world_status 500 in
  (result (CallHyperproofApi.fetch_hyperproof_controls w0) = Exit 1 /\
   requests_of (trace (CallHyperproofApi.fetch_hyperproof_controls w0)) = [])
  /\
  (result (CallHyperproofApi.fetch_hyperproof_controls w5) = Exit 1 /\
   requests_of (trace (CallHyperproofApi.fetch_hyperproof_controls w5))
   = [token_request (environ w5 "CLIENT_ID") (environ w5 "CLIENT_SECRET")])
  /\
  (result (CallHyperproofApi.fetch_hyperproof_controls w) = Ret VNone /\
   forallb on_stdout (trace (CallHyperproofApi.fetch_hyperproof_controls w)) = true /\
   requests_of (trace (CallHyperproofApi.fetch_hyperproof_controls w))
   = [token_request (environ w "CLIENT_ID") (environ w "CLIENT_SECRET");
      {| method := GET; url := "https://api.hyperproof.app/v1/controls/";
         headers := [("Authorization", HBearer (VStr "tok-1"));
                     ("Content-Type", HLit "application/json")];
         payload := NoBody |}] /\
   existsb reports_error (trace (CallHyperproofApi.fetch_hyperproof_controls w)) = true).
Proof.
  split; [|split].
  - apply (proj1 (proj2 (fetch_hyperproof_controls_returns_none world_no_credentials))).
    left. reflexivity.
  - apply (proj1 (proj2 (proj2 (fetch_hyperproof_controls_returns_none (world_status 500)))));
      reflexivity.
  - apply (proj2 (proj2 (proj2 (fetch_hyperproof_controls_returns_none
                    (world_with (Fail (RequestException "connection refused"))))))
             (VStr "tok-1"));
      reflexivity.
Defined.

(** ** Credentials *)

(** X10: [fetch_hyperproof_controls] checks the credentials first: when one is
    missing or empty it leaves with status 1 and sends nothing. *)
Lemma fetch_without_credentials w :
  truthy_arg (environ w "CLIENT_ID") = false \/
  truthy_arg (environ w "CLIENT_SECRET") = false ->
  result (CallHyperproofApi.fetch_hyperproof_controls w) = Exit 1 /\
  requests_of (trace (CallHyperproofApi.fetch_hyperproof_controls w)) = [].
Proof.
  intros H. op_unfold.
  destruct (truthy_arg (environ w "CLIENT_ID")) eqn:E1;
    destruct (truthy_arg (environ w "CLIENT_SECRET")) eqn:E2; simpl;
    try (split; reflexivity).
  destruct H; discriminate.
Qed.

(** The other operations have no such check: whatever the environment
    holds, the first thing they do is send the token request. *)
Lemma run_call_sends_token_request w c :
  exists rest,
    requests_of (trace (run_call c w))
    = token_request (environ w "CLIENT_ID") (environ w "CLIENT_SECRET") :: rest.
Proof.
  destruct (acquire w) as [t o] eqn:H.
  pose proof (acquire_requests w t o H) as Hreq.
  destruct o as [tok|e|code].
  - call_cases c; op_unfold; rewrite H; simpl;
      destruct (truthy tok); simpl;
      match goal with
      | |- context [let (t', o) := ?m in ((t ++ t')%list, o)] =>
          destruct m as [t' o']
      | _ => idtac
      end; simpl;
      rewrite requests_of_app, Hreq; eexists; reflexivity.
  - exists []. call_cases c; op_unfold; rewrite H; simpl; exact Hreq.
  - exists []. call_cases c; op_unfold; rewrite H; simpl; exact Hreq.
Qed.

(** C2 (evaluation at the failing input): the environment holds neither
    [CLIENT_ID] nor [CLIENT_SECRET]; [add_proof] (either copy) sends the
    token request, with both credentials absent, before it leaves with
    status 1, and so do the five other operations. *)
Theorem operations_without_credentials_call_token_endpoint :
  environ world_no_credentials "CLIENT_ID" = None /\
  environ world_no_credentials "CLIENT_SECRET" = None /\
  Forall (fun c =>
            requests_of (trace (run_call c world_no_credentials))
            = [token_request None None] /\
            result (run_call c world_no_credentials) = Exit 1)
    [AddProof add_proof_to_control_py "evidence.json" None None;
     AddProof call_hyperproof_api_py "evidence.json" None None;
     AddProofVersion add_proof_to_control_py "P1" "evidence.json" None;
     AddControlProof add_proof_to_control_py "C1" "evidence.json" None;
     CreateLabel "Q4" "evidence";
     AddLabelProof "L1" "evidence.json" None;
     LinkLabelToControl "C1" "L1"].
Proof.
  split; [reflexivity|]. split; [reflexivity|].
  repeat constructor.
Qed.

(** ** URLs of the sub-resources *)

Lemma no_slash_then_suffix (c rest : string) :
  no_slash c = true ->
  has_double_slash (c ++ String "/" rest) = has_double_slash (String "/" rest).
Proof.
  induction c as [|a c IH]; simpl; intros H; [reflexivity|].
  apply andb_true_iff in H. destruct H as [Ha Hc].
  apply negb_true_iff in Ha. specialize (IH Hc).
  destruct c as [|b c']; simpl in *; rewrite Ha; simpl; [reflexivity | exact IH].
Qed.

(** The copy of [add_control_proof] in [add_proof_to_control.py] builds
    the path [/v1/controls/<c>/proof], free of doubled slashes for an
    identifier that is one path segment. *)
Lemma add_control_proof_path_in_add_proof_to_control (c f : string)
    (ct : option string) (tok : value) (bytes : string) :
  let u := url (action_request (AddControlProof add_proof_to_control_py c f ct) tok bytes) in
  url_path u = "/v1/controls/" ++ c ++ "/proof" /\
  (segment c = true -> has_double_slash (url_path u) = false).
Proof.
  simpl. split; [reflexivity|].
  unfold url_path. simpl. unfold segment. intros H.
  apply andb_true_iff in H. destruct H as [Hne Hns].
  destruct c as [|a c']; [discriminate|].
  simpl in Hns. apply andb_true_iff in Hns. destruct Hns as [Ha Hc].
  apply negb_true_iff in Ha.
  change (has_double_slash ("/v1/controls/" ++ String a c' ++ "/proof") = false).
  simpl. rewrite Ha. simpl.
  pose proof (no_slash_then_suffix (String a c') "proof") as E.
  simpl in E. rewrite Ha in E. simpl in E. apply E. exact Hc.
Qed.

(** The copy in [call_hyperproof_api.py] builds [/v1/controls//<c>/proof]
    for every identifier. *)
Lemma add_control_proof_path_in_call_hyperproof_api (c f : string)
    (ct : option string) (tok : value) (bytes : string) :
  let u := url (action_request (AddControlProof call_hyperproof_api_py c f ct) tok bytes) in
  url_path u = "/v1/controls//" ++ c ++ "/proof" /\
  has_double_slash (url_path u) = true.
Proof. split; reflexivity. Qed.

(** C4 (evaluation at the failing input): in [call_hyperproof_api.py],
    [add_control_proof("C1", "evidence.json")] with a valid token posts
    to the path [/v1/controls//C1/proof], which has a doubled slash and is
    not [/v1/controls/C1/proof]; the copy in [add_proof_to_control.py]
    posts to [/v1/controls/C1/proof].  Both attach the file under the key
    [proof] and return the decoded body of the 201 answer. *)
Theorem add_control_proof_C1_paths :
  let run := CallHyperproofApi.add_control_proof "C1" "evidence.json" None world_ok in
  let run' := AddProofToControl.add_control_proof "C1" "evidence.json" None world_ok in
  map (fun r => url_path (url r)) (requests_of (trace run))
  = ["/oauth/token"; "/v1/controls//C1/proof"] /\
  map (fun r => has_double_slash (url_path (url r))) (requests_of (trace run))
  = [false; true] /\
  map (fun r => url_path (url r)) (requests_of (trace run'))
  = ["/oauth/token"; "/v1/controls/C1/proof"] /\
  map file_parts (requests_of (trace run))
  = [[]; [("proof", {| filename := "evidence.json"; content := "bytes";
                       part_type := None |})]] /\
  result run = Ret (VDict [("id", VStr "p-1")]) /\
  result run' = Ret (VDict [("id", VStr "p-1")]).
Proof. repeat split; reflexivity. Qed.

(** With a token and a readable file, [add_proof_version] and
    [add_label_proof] post to a path with a doubled slash, whatever the
    identifier. *)
Lemma versions_and_label_proof_paths (w : world) (c : call) (tok : value)
    (bytes : string) :
  result (acquire w) = Ret tok -> truthy tok = true ->
  file_ready w c bytes ->
  match c with
  | AddProofVersion _ _ _ _ | AddLabelProof _ _ _ =>
      map (fun r => has_double_slash (url_path (url r)))
          (requests_of (trace (run_call c w)))
      = [false; true]
  | _ => True
  end.
Proof.
  intros Hr Ht Hf. destruct (acquire_split w tok Hr) as [t H].
  pose proof (run_call_requests w c t tok bytes H Ht Hf) as E.
  destruct c; try exact I; rewrite E; reflexivity.
Qed.

(** C6 (evaluation at the failing inputs): the proof-version URL is
    [<proof base>//P1/versions] and the label-proof URL is
    [<labels base>//L1/proof], each with a doubled slash, in both
    scripts; only the link URL, [<controls base>/C1/labels/L1], has
    none. *)
Theorem sub_resource_paths :
  map (fun r => url_path (url r))
      (requests_of (trace (AddProofToControl.add_proof_version "P1" "evidence.json" None world_ok)))
  = ["/oauth/token"; "/v1/proof//P1/versions"] /\
  map (fun r => url_path (url r))
      (requests_of (trace (CallHyperproofApi.add_proof_version "P1" "evidence.json" None world_ok)))
  = ["/oauth/token"; "/v1/proof//P1/versions"] /\
  map (fun r => url_path (url r))
      (requests_of (trace (AddProofToControl.add_label_proof "L1" "evidence.json" None world_ok)))
  = ["/oauth/token"; "/v1/labels//L1/proof"] /\
  map (fun r => url_path (url r))
      (requests_of (trace (AddProofToControl.link_label_to_control "C1" "L1" world_ok)))
  = ["/oauth/token"; "/v1/controls/C1/labels/L1"] /\
  has_double_slash "/v1/proof//P1/versions" = true /\
  has_double_slash "/v1/labels//L1/proof" = true /\
  has_double_slash "/v1/controls/C1/labels/L1" = false.
Proof. repeat split; reflexivity. Qed.

(** ** The two copies compared *)

Lemma add_proof_same :
  CallHyperproofApi.add_proof = AddProofToControl.add_proof.
Proof. reflexivity. Qed.

Lemma add_proof_version_same :
  CallHyperproofApi.add_proof_version = AddProofToControl.add_proof_version.
Proof. reflexivity. Qed.

Lemma append_self_longer (a s : string) : String "/" (a ++ s) <> a ++ s.
Proof.
  intros E. apply (f_equal String.length) in E. simpl in E. lia.
Qed.

(** With a token and a readable file the two copies of
    [add_control_proof] never send the same requests. *)
Lemma add_control_proof_copies_differ_everywhere (w : world) (c f : string)
    (ct : option string) (tok : value) (bytes : string) :
  result (acquire w) = Ret tok -> truthy tok = true ->
  fs w f = FileOk bytes ->
  requests_of (trace (AddProofToControl.add_control_proof c f ct w))
  <> requests_of (trace (CallHyperproofApi.add_control_proof c f ct w)).
Proof.
  intros Hr Ht Hf. destruct (acquire_split w tok Hr) as [t H].
  pose proof (run_call_requests w (AddControlProof add_proof_to_control_py c f ct)
                t tok bytes H Ht Hf) as E1.
  pose proof (run_call_requests w (AddControlProof call_hyperproof_api_py c f ct)
                t tok bytes H Ht Hf) as E2.
  simpl run_call in E1, E2. rewrite E1, E2. intros E.
  inversion E as [Eu].
  apply (append_self_longer c "/proof"). symmetry. exact Eu.
Qed.

(** C8 (evaluation at the failing input): for the same arguments, world
    and answers, the two copies of [add_control_proof] post to different
    URLs. *)
Theorem add_control_proof_copies_differ :
  map url (requests_of
             (trace (AddProofToControl.add_control_proof "C1" "evidence.json" None world_ok)))
  = ["https://accounts.hyperproof.app/oauth/token";
     "https://api.hyperproof.app/v1/controls/C1/proof"] /\
  map url (requests_of
             (trace (CallHyperproofApi.add_control_proof "C1" "evidence.json" None world_ok)))
  = ["https://accounts.hyperproof.app/oauth/token";
     "https://api.hyperproof.app/v1/controls//C1/proof"] /\
  AddProofToControl.add_control_proof "C1" "evidence.json" None world_ok
  <> CallHyperproofApi.add_control_proof "C1" "evidence.json" None world_ok.
Proof.
  split; [reflexivity|]. split; [reflexivity|].
  intros E. apply (f_equal (fun r => map url (requests_of (trace r)))) in E.
  vm_compute in E. discriminate E.
Qed.

(** ** More on token acquisition *)

(** X3: [get_access_token] lets an exception through in two situations only:
    [requests.post] raised something that is not a [RequestException],
    or the answer had status 200 and decoded to JSON that is not an
    object. *)
Theorem get_access_token_raises_iff cid cs w err :
  result (AddProofToControl.get_access_token cid cs w) = Raise err
  <->
  (http w (token_request cid cs) = Fail err /\ isinstance err CRequestException = false)
  \/
  (exists r v, http w (token_request cid cs) = Reply r /\
               status_code r = 200 /\
               decoded r = Some v /\
               (forall d, v <> VDict d) /\
               err = AttributeError "object has no attribute 'get'").
Proof.
  split.
  - unfold token_request.
    token_cases w; intros H; inversion H; subst; simpl;
      try (left; split; reflexivity);
      right; apply Z.eqb_eq in Hs;
      eexists; eexists; repeat split; try eassumption; try reflexivity;
      intros d' E; discriminate E.
  - intros [[H He]|(r & v & H & Hs & Hd & Hv & ->)]; token_unfold; rewrite H; simpl.
    + destruct err; try discriminate He; reflexivity.
    + rewrite Hs. simpl. unfold json. rewrite Hd. simpl.
      destruct v; try reflexivity. exfalso. exact (Hv d eq_refl).
Qed.

(** X4: The failures [get_access_token] does report: an exception of
    [requests], and a 200 answer that is not JSON or is an object without
    a usable [access_token].  Each prints an error line and gives
    [None]. *)
Theorem get_access_token_reported_failures cid cs w :
  (exists e, http w (token_request cid cs) = Fail e /\
             isinstance e CRequestException = true)
  \/
  (exists r, http w (token_request cid cs) = Reply r /\
             status_code r = 200 /\
             (decoded r = None \/
              exists d, decoded r = Some (VDict d) /\
                        truthy (dict_get d "access_token") = false)) ->
  result (AddProofToControl.get_access_token cid cs w) = Ret VNone /\
  existsb reports_error (trace (AddProofToControl.get_access_token cid cs w)) = true.
Proof.
  intros [(e & H & He)|(r & H & Hs & [Hd|(d & Hd & Hg)])].
  - exact (get_access_token_network_failure cid cs w e H He).
  - exact (get_access_token_malformed_json cid cs w r H Hs Hd).
  - exact (get_access_token_missing_field cid cs w r d H Hs Hd Hg).
Qed.

Lemma get_access_token_reported_failures_witness :
  let w := {| environ := credentials;
              http := fun _ => Reply {| status_code := 200; text := "{}";
                                        decoded := Some (VDict []) |};
              fs := fun _ => FileMissing |} in
  result (AddProofToControl.get_access_token (Some "my-client") (Some "my-secret") w)
  = Ret VNone /\
  existsb reports_error
    (trace (AddProofToControl.get_access_token (Some "my-client") (Some "my-secret") w))
  = true.
Proof.
  apply get_access_token_reported_failures.
  right. eexists. split; [reflexivity|]. split; [reflexivity|].
  right. exists []. split; reflexivity.
Defined.

(** ** More on the operations *)

Lemma prints_only_no_log (l : level) (t : list event) :
  forallb on_stdout t = true -> existsb (logged_at l) t = false.
Proof.
  induction t as [|e t IH]; simpl; [reflexivity|].
  intros H. apply andb_true_iff in H. destruct H as [He Ht].
  rewrite (IH Ht). destruct e; try discriminate He; destruct l; reflexivity.
Qed.

Lemma acquire_no_log w t o l :
  acquire w = (t, o) -> existsb (logged_at l) t = false.
Proof.
  intros H. apply prints_only_no_log.
  change t with (trace (t, o)). rewrite <- H. apply get_access_token_prints_only.
Qed.

(** X7: An operation that returns a payload returns the decoded body of any
    answer to its request whose status is outside 400..599 (2xx, but 1xx
    and 3xx as well), logs at INFO and logs no error. *)
Theorem answer_body_is_returned (w : world) (c : call) (tok : value)
    (bytes : string) (r : Response) (v : value) :
  result (acquire w) = Ret tok -> truthy tok = true ->
  file_ready w c bytes ->
  http w (action_request c tok bytes) = Reply r ->
  is_error_status (status_code r) = false ->
  decoded r = Some v ->
  returns_payload c = true ->
  result (run_call c w) = Ret v /\
  existsb (logged_at INFO) (trace (run_call c w)) = true /\
  existsb (logged_at ERROR) (trace (run_call c w)) = false.
Proof.
  intros Hr Ht Hf Hh Hs Hd Hp. destruct (acquire_split w tok Hr) as [t H].
  pose proof (acquire_no_log w t _ INFO H) as Hi.
  pose proof (acquire_no_log w t _ ERROR H) as He.
  unfold file_ready in Hf.
  call_cases c; try discriminate Hp; simpl in Hf;
    op_unfold; rewrite H, Ht; simpl; body_unfold;
    try rewrite Hf; simpl;
    split_override Hh; pin_request w Hh; rewrite Hs; simpl; rewrite Hd; simpl;
    rewrite !existsb_app, Hi, He; repeat split; reflexivity.
Qed.

Lemma answer_body_is_returned_witness :
  let w := world_with (Reply {| status_code := 302; text := "[1]";
                                decoded := Some (VList [VInt 1]) |}) in
  let c := AddLabelProof "L1" "pony.png" None in
  result (run_call c w) = Ret (VList [VInt 1]) /\
  existsb (logged_at INFO) (trace (run_call c w)) = true /\
  existsb (logged_at ERROR) (trace (run_call c w)) = false.
Proof.
  apply (answer_body_is_returned
           (world_with (Reply {| status_code := 302; text := "[1]";
                                 decoded := Some (VList [VInt 1]) |}))
           (AddLabelProof "L1" "pony.png" None) (VStr "tok-1") "bytes"
           {| status_code := 302; text := "[1]"; decoded := Some (VList [VInt 1]) |}
           (VList [VInt 1]));
    reflexivity.
Defined.

(** X8: An answer to its request that is no error but whose body is not
    JSON (an empty 204 body, say) makes a payload operation log its
    success at INFO, then an error, and return [None]. *)
Theorem undecodable_answer_is_a_failure (w : world) (c : call) (tok : value)
    (bytes : string) (r : Response) :
  result (acquire w) = Ret tok -> truthy tok = true ->
  file_ready w c bytes ->
  http w (action_request c tok bytes) = Reply r ->
  is_error_status (status_code r) = false ->
  decoded r = None ->
  returns_payload c = true ->
  result (run_call c w) = Ret VNone /\
  existsb (logged_at INFO) (trace (run_call c w)) = true /\
  In (ELog ERROR [Lit "An unexpected error occurred: "; FExn (JSONDecodeError (text r))])
     (trace (run_call c w)).
Proof.
  intros Hr Ht Hf Hh Hs Hd Hp. destruct (acquire_split w tok Hr) as [t H].
  pose proof (acquire_no_log w t _ INFO H) as Hi.
  unfold file_ready in Hf.
  call_cases c; try discriminate Hp; simpl in Hf;
    op_unfold; rewrite H, Ht; simpl; body_unfold;
    try rewrite Hf; simpl;
    split_override Hh; pin_request w Hh; rewrite Hs; simpl; rewrite Hd; simpl;
    rewrite !existsb_app, Hi; repeat split; try reflexivity;
    apply in_or_app; right; simpl; auto 12.
Qed.

Lemma undecodable_answer_is_a_failure_witness :
  let r := {| status_code := 204; text := ""; decoded := None |} in
  let c := CreateLabel "Q4" "evidence" in
  result (run_call c (world_with (Reply r))) = Ret VNone /\
  existsb (logged_at INFO) (trace (run_call c (world_with (Reply r)))) = true /\
  In (ELog ERROR [Lit "An unexpected error occurred: "; FExn (JSONDecodeError (text r))])
     (trace (run_call c (world_with (Reply r)))).
Proof.
  apply (undecodable_answer_is_a_failure
           (world_with (Reply {| status_code := 204; text := ""; decoded := None |}))
           (CreateLabel "Q4" "evidence") (VStr "tok-1") "");
    first [reflexivity | exact I].
Defined.

(** X6: When the file to upload does not exist, the token has been fetched
    all the same, nothing is sent to the action endpoint, and the error
    logged names the path. *)
Theorem missing_file_sends_no_upload (w : world) (c : call) (path : string)
    (tok : value) :
  result (acquire w) = Ret tok -> truthy tok = true ->
  file_of c = Some path -> fs w path = FileMissing ->
  requests_of (trace (run_call c w))
  = [token_request (environ w "CLIENT_ID") (environ w "CLIENT_SECRET")] /\
  In (ELog ERROR [Lit "File not found at path: "; FStr path]) (trace (run_call c w)) /\
  result (run_call c w) = Ret VNone.
Proof.
  intros Hr Ht Hc Hf. destruct (acquire_split w tok Hr) as [t H].
  pose proof (acquire_requests w t _ H) as Hreq.
  call_cases c; simpl in Hc; inversion Hc; subst path;
    op_unfold; rewrite H, Ht; simpl; body_unfold; rewrite Hf; simpl;
    rewrite requests_of_app, Hreq; repeat split; try reflexivity;
    apply in_or_app; right; simpl; auto 12.
Qed.

Lemma missing_file_sends_no_upload_witness :
  let c := AddProofVersion call_hyperproof_api_py "P1" "enriched_evidence.json" None in
  requests_of (trace (run_call c world_no_file))
  = [token_request (environ world_no_file "CLIENT_ID")
       (environ world_no_file "CLIENT_SECRET")] /\
  In (ELog ERROR [Lit "File not found at path: "; FStr "enriched_evidence.json"])
     (trace (run_call c world_no_file)) /\
  result (run_call c world_no_file) = Ret VNone.
Proof.
  apply (missing_file_sends_no_upload world_no_file
           (AddProofVersion call_hyperproof_api_py "P1" "enriched_evidence.json" None)
           "enriched_evidence.json" (VStr "tok-1"));
    reflexivity.
Defined.


(** X9: The token travels from the answer of the token endpoint to the
    action request: that request carries [Authorization: Bearer <the
    access_token entry>] and [Accept: application/json]. *)
Theorem bearer_is_the_token_entry (w : world) (c : call) (bytes : string)
    (r : Response) (d : list (string * value)) :
  http w (token_request (environ w "CLIENT_ID") (environ w "CLIENT_SECRET")) = Reply r ->
  status_code r = 200 ->
  decoded r = Some (VDict d) ->
  truthy (dict_get d "access_token") = true ->
  file_ready w c bytes ->
  exists q,
    requests_of (trace (run_call c w))
    = [token_request (environ w "CLIENT_ID") (environ w "CLIENT_SECRET"); q] /\
    header "Authorization" (headers q) = Some (HBearer (dict_get d "access_token")) /\
    header "Accept" (headers q) = Some (HLit "application/json").
Proof.
  intros Hh Hs Hd Ht Hf.
  assert (Hr : result (acquire w) = Ret (dict_get d "access_token")).
  { apply (proj2 (get_access_token_success _ _ w _)).
    exists r, d. auto. }
  destruct (acquire_split w _ Hr) as [t H].
  eexists. split; [exact (run_call_requests w c t _ bytes H Ht Hf)|].
  destruct c; split; reflexivity.
Qed.

Lemma bearer_is_the_token_entry_witness :
  let c := LinkLabelToControl "C1" "L1" in
  exists q,
    requests_of (trace (run_call c world_ok))
    = [token_request (environ world_ok "CLIENT_ID") (environ world_ok "CLIENT_SECRET"); q] /\
    header "Authorization" (headers q)
    = Some (HBearer (dict_get [("access_token", VStr "tok-1"); ("token_type", VStr "Bearer")]
                       "access_token")) /\
    header "Accept" (headers q) = Some (HLit "application/json").
Proof.
  apply (bearer_is_the_token_entry world_ok (LinkLabelToControl "C1" "L1") ""
           (token_reply "tok-1")
           [("access_token", VStr "tok-1"); ("token_type", VStr "Bearer")]);
    first [reflexivity | exact I].
Defined.

(** ** More on fetching the controls *)

(** An empty credential counts as a missing one. *)
Lemma fetch_without_credentials_witness :
  let w := {| environ := fun k => if (k =? "CLIENT_ID")%string then Some "" else Some "s3cret";
              http := http world_ok;
              fs := fun _ => FileMissing |} in
  result (CallHyperproofApi.fetch_hyperproof_controls w) = Exit 1 /\
  requests_of (trace (CallHyperproofApi.fetch_hyperproof_controls w)) = [].
Proof.
  apply (fetch_without_credentials
           {| environ := fun k => if (k =? "CLIENT_ID")%string then Some "" else Some "s3cret";
              http := http world_ok;
              fs := fun _ => FileMissing |}).
  left. reflexivity.
Defined.

(** X11: With credentials but no token, [fetch_hyperproof_controls] leaves
    with status 1 after the token request; the controls are not asked
    for. *)
Theorem fetch_without_token (w : world) :
  truthy_arg (environ w "CLIENT_ID") = true ->
  truthy_arg (environ w "CLIENT_SECRET") = true ->
  result (acquire w) = Ret VNone ->
  result (CallHyperproofApi.fetch_hyperproof_controls w) = Exit 1 /\
  requests_of (trace (CallHyperproofApi.fetch_hyperproof_controls w))
  = [token_request (environ w "CLIENT_ID") (environ w "CLIENT_SECRET")].
Proof.
  intros Hi Hs Hr. destruct (acquire_split w _ Hr) as [t H].
  pose proof (acquire_requests w t _ H) as Hreq.
  op_unfold. rewrite Hi, Hs. simpl. rewrite H. simpl.
  rewrite requests_of_app, Hreq. split; reflexivity.
Qed.

Lemma fetch_without_token_witness :
  result (CallHyperproofApi.fetch_hyperproof_controls (world_status 503)) = Exit 1 /\
  requests_of (trace (CallHyperproofApi.fetch_hyperproof_controls (world_status 503)))
  = [token_request (environ (world_status 503) "CLIENT_ID")
       (environ (world_status 503) "CLIENT_SECRET")].
Proof.
  apply (fetch_without_token (world_status 503)); reflexivity.
Defined.

(** X12: On a 200 answer to the controls request that decodes, the data
    is printed with [json.dumps]; a list is followed by the line that
    counts its elements, an object whose [data] entry is a list by the
    line that counts the entry's elements. *)
Theorem fetch_prints_data_and_count (w : world) (tok : value) (r : Response)
    (v : value) :
  truthy_arg (environ w "CLIENT_ID") = true ->
  truthy_arg (environ w "CLIENT_SECRET") = true ->
  result (acquire w) = Ret tok -> truthy tok = true ->
  http w (controls_request tok) = Reply r ->
  status_code r = 200 ->
  decoded r = Some v ->
  In (EPrint [FDumps v]) (trace (CallHyperproofApi.fetch_hyperproof_controls w)) /\
  (forall l, v = VList l ->
     In (EPrint [Lit nl; Lit "Found "; FInt (Z.of_nat (List.length l)); Lit " controls."])
        (trace (CallHyperproofApi.fetch_hyperproof_controls w))) /\
  (forall d l, v = VDict d -> dict_mem d "data" = true ->
     dict_get d "data" = VList l ->
     In (EPrint [Lit nl; Lit "Found "; FInt (Z.of_nat (List.length l));
                 Lit " controls on this page."])
        (trace (CallHyperproofApi.fetch_hyperproof_controls w))).
Proof.
  intros Hi Hs Hr Ht Hrem Hst Hd. destruct (acquire_split w tok Hr) as [t H].
  repeat split.
  - fetch_run_at w H Ht Hi Hs Hrem. rewrite Hst, Hd. simpl.
    destruct v; simpl; repeat fetch_step w;
      apply in_or_app; right; simpl; auto 12.
  - intros l ->. fetch_run_at w H Ht Hi Hs Hrem. rewrite Hst, Hd. simpl.
    apply in_or_app; right; simpl; auto 12.
  - intros d l -> Hm Hg. fetch_run_at w H Ht Hi Hs Hrem. rewrite Hst, Hd. simpl.
    rewrite Hm, Hg. simpl.
    apply in_or_app; right; simpl; auto 12.
Qed.

Lemma fetch_prints_data_and_count_witness :
  let w := world_with (Reply controls_page) in
  let v := VDict [("data", VList [VStr "c1"; VStr "c2"; VStr "c3"])] in
  In (EPrint [FDumps v]) (trace (CallHyperproofApi.fetch_hyperproof_controls w)) /\
  (forall l, v = VList l ->
     In (EPrint [Lit nl; Lit "Found "; FInt (Z.of_nat (List.length l)); Lit " controls."])
        (trace (CallHyperproofApi.fetch_hyperproof_controls w))) /\
  (forall d l, v = VDict d -> dict_mem d "data" = true ->
     dict_get d "data" = VList l ->
     In (EPrint [Lit nl; Lit "Found "; FInt (Z.of_nat (List.length l));
                 Lit " controls on this page."])
        (trace (CallHyperproofApi.fetch_hyperproof_controls w))).
Proof.
  apply (fetch_prints_data_and_count (world_with (Reply controls_page))
           (VStr "tok-1") controls_page);
    reflexivity.
Defined.

(** X13: A 200 answer to the controls request whose [data] entry has no
    length (a number, a boolean, [null]): the data has been printed,
    [len] raises [TypeError], the
    last handler prints it as an unexpected error, and [None] comes
    back. *)
Theorem fetch_data_without_length (w : world) (tok : value) (r : Response)
    (d : list (string * value)) :
  truthy_arg (environ w "CLIENT_ID") = true ->
  truthy_arg (environ w "CLIENT_SECRET") = true ->
  result (acquire w) = Ret tok -> truthy tok = true ->
  http w (controls_request tok) = Reply r ->
  status_code r = 200 ->
  decoded r = Some (VDict d) ->
  dict_mem d "data" = true ->
  (forall s, dict_get d "data" <> VStr s) ->
  (forall l, dict_get d "data" <> VList l) ->
  (forall x, dict_get d "data" <> VDict x) ->
  result (CallHyperproofApi.fetch_hyperproof_controls w) = Ret VNone /\
  In (EPrint [FDumps (VDict d)]) (trace (CallHyperproofApi.fetch_hyperproof_controls w)) /\
  In (EPrint [Lit "❌ An unexpected error occurred: ";
              FExn (TypeError "object has no len()")])
     (trace (CallHyperproofApi.fetch_hyperproof_controls w)).
Proof.
  intros Hi Hs Hr Ht Hrem Hst Hd Hm Hns Hnl Hnd.
  destruct (acquire_split w tok Hr) as [t H].
  fetch_run_at w H Ht Hi Hs Hrem. rewrite Hst, Hd. simpl. rewrite Hm.
  destruct (dict_get d "data") as [| | | |s|l|x] eqn:Hg; simpl;
    try (exfalso; first [exact (Hns s eq_refl) | exact (Hnl l eq_refl) | exact (Hnd x eq_refl)]);
    repeat split; try reflexivity; apply in_or_app; right; simpl; auto 12.
Qed.

Lemma fetch_data_without_length_witness :
  let w := world_with (Reply controls_count_only) in
  result (CallHyperproofApi.fetch_hyperproof_controls w) = Ret VNone /\
  In (EPrint [FDumps (VDict [("data", VInt 3)])])
     (trace (CallHyperproofApi.fetch_hyperproof_controls w)) /\
  In (EPrint [Lit "❌ An unexpected error occurred: ";
              FExn (TypeError "object has no len()")])
     (trace (CallHyperproofApi.fetch_hyperproof_controls w)).
Proof.
  apply (fetch_data_without_length (world_with (Reply controls_count_only))
           (VStr "tok-1") controls_count_only [("data", VInt 3)]);
    try reflexivity; intros; discriminate.
Defined.

(** ** Paths without a doubled slash *)

Lemma no_slash_no_double (s : string) :
  no_slash s = true -> has_double_slash s = false.
Proof.
  induction s as [|a s IH]; simpl; intros H; [reflexivity|].
  apply andb_true_iff in H. destruct H as [Ha Hs].
  apply negb_true_iff in Ha. specialize (IH Hs).
  destruct s as [|b s']; [reflexivity|].
  rewrite Ha. simpl. exact IH.
Qed.

Lemma has_double_slash_cons (a b : ascii) (s : string) :
  has_double_slash (String a (String b s))
  = ((a =? "/")%char && (b =? "/")%char) || has_double_slash (String b s).
Proof. reflexivity. Qed.

Lemma segment_after_slash (s rest : string) :
  segment s = true ->
  has_double_slash (String "/" (s ++ rest)) = has_double_slash (s ++ rest).
Proof.
  unfold segment. intros H. apply andb_true_iff in H. destruct H as [Hne Hns].
  destruct s as [|a s']; [discriminate Hne|].
  simpl in Hns. apply andb_true_iff in Hns. destruct Hns as [Ha _].
  apply negb_true_iff in Ha.
  change (String a s' ++ rest) with (String a (s' ++ rest)).
  rewrite has_double_slash_cons, Ha, andb_false_r. reflexivity.
Qed.

Lemma segment_after_slash_end (s : string) :
  segment s = true ->
  has_double_slash (String "/" s) = has_double_slash s.
Proof.
  unfold segment. intros H. apply andb_true_iff in H. destruct H as [Hne Hns].
  destruct s as [|a s']; [discriminate Hne|].
  simpl in Hns. apply andb_true_iff in Hns. destruct Hns as [Ha _].
  apply negb_true_iff in Ha.
  rewrite has_double_slash_cons, Ha, andb_false_r. reflexivity.
Qed.

Lemma controls_prefix (x : string) :
  has_double_slash ("/v1/controls/" ++ x) = has_double_slash (String "/" x).
Proof. destruct x; reflexivity. Qed.

Lemma labels_infix (x : string) :
  has_double_slash (String "/" ("labels/" ++ x)) = has_double_slash (String "/" x).
Proof. destruct x; reflexivity. Qed.

Lemma segment_no_slash (s : string) : segment s = true -> no_slash s = true.
Proof. unfold segment. intros H. apply andb_true_iff in H. tauto. Qed.

(** X14: In [add_proof_to_control.py] the requests built on the controls
    base, linking a label and attaching proof to a control, go to
    [/v1/controls/<c>/labels/<l>] and [/v1/controls/<c>/proof], and for
    identifiers that are one path segment these paths have no doubled
    slash. *)
Theorem controls_paths_are_clean (w : world) (tok : value) (control_id label_id : string)
    (file_to_upload : string) (content_type : option string) (bytes : string) :
  result (acquire w) = Ret tok -> truthy tok = true ->
  fs w file_to_upload = FileOk bytes ->
  segment control_id = true -> segment label_id = true ->
  let link := AddProofToControl.link_label_to_control control_id label_id w in
  let add := AddProofToControl.add_control_proof control_id file_to_upload content_type w in
  map (fun q => url_path (url q)) (requests_of (trace link))
  = ["/oauth/token"; "/v1/controls/" ++ control_id ++ "/labels/" ++ label_id] /\
  map (fun q => url_path (url q)) (requests_of (trace add))
  = ["/oauth/token"; "/v1/controls/" ++ control_id ++ "/proof"] /\
  map (fun q => has_double_slash (url_path (url q))) (requests_of (trace link))
  = [false; false] /\
  map (fun q => has_double_slash (url_path (url q))) (requests_of (trace add))
  = [false; false].
Proof.
  intros Hr Ht Hf Hc Hl link add. destruct (acquire_split w tok Hr) as [t H].
  pose proof (run_call_requests w (LinkLabelToControl control_id label_id)
                t tok "" H Ht I) as E1.
  pose proof (run_call_requests w
                (AddControlProof add_proof_to_control_py control_id file_to_upload content_type)
                t tok bytes H Ht Hf) as E2.
  simpl run_call in E1, E2. subst link add. rewrite E1, E2.
  assert (P1 : has_double_slash ("/v1/controls/" ++ control_id ++ "/labels/" ++ label_id)
               = false).
  { rewrite controls_prefix, (segment_after_slash control_id _ Hc).
    change (control_id ++ "/labels/" ++ label_id)
      with (control_id ++ String "/" ("labels/" ++ label_id)).
    rewrite (no_slash_then_suffix _ _ (segment_no_slash _ Hc)).
    rewrite labels_infix, (segment_after_slash_end _ Hl).
    apply no_slash_no_double, segment_no_slash, Hl. }
  assert (P2 : has_double_slash ("/v1/controls/" ++ control_id ++ "/proof") = false).
  { rewrite controls_prefix, (segment_after_slash control_id _ Hc).
    change (control_id ++ "/proof") with (control_id ++ String "/" "proof").
    rewrite (no_slash_then_suffix _ _ (segment_no_slash _ Hc)). reflexivity. }
  change (map (fun q => url_path (url q))
            [token_request (environ w "CLIENT_ID") (environ w "CLIENT_SECRET");
             action_request (LinkLabelToControl control_id label_id) tok ""])
    with ["/oauth/token"; "/v1/controls/" ++ control_id ++ "/labels/" ++ label_id].
  change (map (fun q => url_path (url q))
            [token_request (environ w "CLIENT_ID") (environ w "CLIENT_SECRET");
             action_request
               (AddControlProof add_proof_to_control_py control_id file_to_upload content_type)
               tok bytes])
    with ["/oauth/token"; "/v1/controls/" ++ control_id ++ "/proof"].
  change (map (fun q => has_double_slash (url_path (url q)))
            [token_request (environ w "CLIENT_ID") (environ w "CLIENT_SECRET");
             action_request (LinkLabelToControl control_id label_id) tok ""])
    with [false;
          has_double_slash ("/v1/controls/" ++ control_id ++ "/labels/" ++ label_id)].
  change (map (fun q => has_double_slash (url_path (url q)))
            [token_request (environ w "CLIENT_ID") (environ w "CLIENT_SECRET");
             action_request
               (AddControlProof add_proof_to_control_py control_id file_to_upload content_type)
               tok bytes])
    with [false; has_double_slash ("/v1/controls/" ++ control_id ++ "/proof")].
  rewrite P1, P2. repeat split; reflexivity.
Qed.

Lemma controls_paths_are_clean_witness :
  let link := AddProofToControl.link_label_to_control
                "e0683e57-b3d1-11f0-a50c-5a2610f6476" "L1" world_ok in
  let add := AddProofToControl.add_control_proof
               "e0683e57-b3d1-11f0-a50c-5a2610f6476" "pony.png" None world_ok in
  map (fun q => url_path (url q)) (requests_of (trace link))
  = ["/oauth/token";
     "/v1/controls/" ++ "e0683e57-b3d1-11f0-a50c-5a2610f6476" ++ "/labels/" ++ "L1"] /\
  map (fun q => url_path (url q)) (requests_of (trace add))
  = ["/oauth/token"; "/v1/controls/" ++ "e0683e57-b3d1-11f0-a50c-5a2610f6476" ++ "/proof"] /\
  map (fun q => has_double_slash (url_path (url q))) (requests_of (trace link))
  = [false; false] /\
  map (fun q => has_double_slash (url_path (url q))) (requests_of (trace add))
  = [false; false].
Proof.
  apply (controls_paths_are_clean world_ok (VStr "tok-1")
           "e0683e57-b3d1-11f0-a50c-5a2610f6476" "L1" "pony.png" None "bytes");
    reflexivity.
Defined.

(** X15: Identifiers are not validated: with an empty control id the link
    request is sent all the same, to [/v1/controls//labels/<l>]. *)
Theorem empty_control_id_is_sent (w : world) (tok : value) (label_id : string) :
  result (acquire w) = Ret tok -> truthy tok = true ->
  let link := AddProofToControl.link_label_to_control "" label_id w in
  map (fun q => url_path (url q)) (requests_of (trace link))
  = ["/oauth/token"; "/v1/controls//labels/" ++ label_id] /\
  map (fun q => has_double_slash (url_path (url q))) (requests_of (trace link))
  = [false; true].
Proof.
  intros Hr Ht link. destruct (acquire_split w tok Hr) as [t H].
  pose proof (run_call_requests w (LinkLabelToControl "" label_id) t tok "" H Ht I) as E.
  simpl run_call in E. subst link. rewrite E. split; reflexivity.
Qed.

Lemma empty_control_id_is_sent_witness :
  let link := AddProofToControl.link_label_to_control "" "L1" world_ok in
  map (fun q => url_path (url q)) (requests_of (trace link))
  = ["/oauth/token"; "/v1/controls//labels/" ++ "L1"] /\
  map (fun q => has_double_slash (url_path (url q))) (requests_of (trace link))
  = [false; true].
Proof.
  apply (empty_control_id_is_sent world_ok (VStr "tok-1") "L1"); reflexivity.
Defined.

(** ** The [__main__] blocks *)

Lemma bind_ret_run {A B} (m : M A) (k : A -> M B) w t a :
  m w = (t, Ret a) ->
  bind m k w = ((t ++ trace (k a w))%list, result (k a w)).
Proof. intros H. unfold bind. rewrite H. destruct (k a w); reflexivity. Qed.

Lemma bind_raise_run {A B} (m : M A) (k : A -> M B) w t e :
  m w = (t, Raise e) -> bind m k w = (t, Raise e).
Proof. intros H. unfold bind. rewrite H. reflexivity. Qed.

Lemma bind_exit_run {A B} (m : M A) (k : A -> M B) w t c :
  m w = (t, Exit c) -> bind m k w = (t, Exit c).
Proof. intros H. unfold bind. rewrite H. reflexivity. Qed.

Lemma run_split {A} (r : list event * outcome A) : r = (trace r, result r).
Proof. destruct r; reflexivity. Qed.

(** X16: When [create_label] gives back a value that fails the truth test
    ([None] after any failure, but an empty object too), the block of
    [add_proof_to_control.py] reads [new_label_id], which was never
    assigned: it stops on a [NameError], having done nothing beyond the
    call of [create_label]. *)
Theorem main_stops_on_unassigned_label_id (py_str : value -> string) (w : world)
    (v : value) :
  result (AddProofToControl.create_label "Sophia Shared Evidence"
            "All evidence collected for the Q4 2025 audit" w) = Ret v ->
  truthy v = false ->
  result (AddProofToControl.main py_str w) = Raise (NameError "new_label_id") /\
  trace (AddProofToControl.main py_str w)
  = trace (AddProofToControl.create_label "Sophia Shared Evidence"
             "All evidence collected for the Q4 2025 audit" w).
Proof.
  intros Hr Hv.
  destruct (AddProofToControl.create_label _ _ w) as [t o] eqn:H.
  simpl in Hr. subst o.
  unfold AddProofToControl.main. cbv zeta.
  rewrite (bind_ret_run _ _ w t v H), Hv.
  cbv beta iota zeta delta [bind ret raise trace result fst snd].
  rewrite app_nil_r. split; reflexivity.
Qed.

Lemma main_stops_on_unassigned_label_id_witness :
  let w := world_with (Reply (status_reply 403)) in
  result (AddProofToControl.main (fun _ => "") w) = Raise (NameError "new_label_id") /\
  trace (AddProofToControl.main (fun _ => "") w)
  = trace (AddProofToControl.create_label "Sophia Shared Evidence"
             "All evidence collected for the Q4 2025 audit" w).
Proof.
  apply (main_stops_on_unassigned_label_id (fun _ => "")
           (world_with (Reply (status_reply 403))) VNone);
    reflexivity.
Defined.

(** X17: When [create_label] gives back a value that passes the truth test
    but is not an object with an [id] entry, [label_response['id']]
    raises, [KeyError] for an object, and the block stops there. *)
Theorem main_stops_on_answer_without_id (py_str : value -> string) (w : world)
    (v : value) :
  result (AddProofToControl.create_label "Sophia Shared Evidence"
            "All evidence collected for the Q4 2025 audit" w) = Ret v ->
  truthy v = true ->
  (forall d, v = VDict d -> dict_mem d "id" = false) ->
  (exists e, result (AddProofToControl.main py_str w) = Raise e /\
             (forall d, v = VDict d -> e = KeyError "id")) /\
  trace (AddProofToControl.main py_str w)
  = trace (AddProofToControl.create_label "Sophia Shared Evidence"
             "All evidence collected for the Q4 2025 audit" w).
Proof.
  intros Hr Hv Hd.
  destruct (AddProofToControl.create_label _ _ w) as [t o] eqn:H.
  simpl in Hr. subst o.
  unfold AddProofToControl.main. cbv zeta.
  rewrite (bind_ret_run _ _ w t v H), Hv.
  destruct v as [| | | | | |d]; try discriminate Hv;
    try rewrite (Hd d eq_refl);
    cbv beta iota zeta delta [bind ret raise subscript trace result fst snd];
    try rewrite (Hd d eq_refl);
    rewrite app_nil_r;
    (split; [eexists; split; [reflexivity|] | reflexivity]);
    intros d' E; try discriminate E; reflexivity.
Qed.

Lemma main_stops_on_answer_without_id_witness :
  let w := world_with (Reply {| status_code := 201; text := "{name: Q4}";
                                decoded := Some (VDict [("name", VStr "Q4")]) |}) in
  (exists e, result (AddProofToControl.main (fun _ => "") w) = Raise e /\
             (forall d, VDict [("name", VStr "Q4")] = VDict d -> e = KeyError "id")) /\
  trace (AddProofToControl.main (fun _ => "") w)
  = trace (AddProofToControl.create_label "Sophia Shared Evidence"
             "All evidence collected for the Q4 2025 audit" w).
Proof.
  apply (main_stops_on_answer_without_id (fun _ => "")
           (world_with (Reply {| status_code := 201; text := "{name: Q4}";
                                 decoded := Some (VDict [("name", VStr "Q4")]) |}))
           (VDict [("name", VStr "Q4")])).
  - reflexivity.
  - reflexivity.
  - intros d E. inversion E. reflexivity.
Defined.

(** X18: When [create_label] gives back an object with an [id], the block
    uploads [pony.png] to the label and links the label to the two
    controls, fetching a token before each of the four steps; it ignores
    what the upload and the links return and ends normally. *)
Theorem main_creates_uploads_and_links (py_str : value -> string) (w : world)
    (tok : value) (bytes : string) (d : list (string * value)) :
  result (acquire w) = Ret tok -> truthy tok = true ->
  fs w "pony.png" = FileOk bytes ->
  result (AddProofToControl.create_label "Sophia Shared Evidence"
            "All evidence collected for the Q4 2025 audit" w) = Ret (VDict d) ->
  truthy (VDict d) = true ->
  dict_mem d "id" = true ->
  let id := py_str (dict_get d "id") in
  result (AddProofToControl.main py_str w) = Ret tt /\
  map url (requests_of (trace (AddProofToControl.main py_str w)))
  = ["https://accounts.hyperproof.app/oauth/token";
     "https://api.hyperproof.app/v1/labels/";
     "https://accounts.hyperproof.app/oauth/token";
     "https://api.hyperproof.app/v1/labels/" ++ "/" ++ id ++ "/proof";
     "https://accounts.hyperproof.app/oauth/token";
     "https://api.hyperproof.app/v1/controls" ++ "/"
       ++ "e0683e57-b3d1-11f0-a50c-5a2610f6476" ++ "/labels/" ++ id;
     "https://accounts.hyperproof.app/oauth/token";
     "https://api.hyperproof.app/v1/controls" ++ "/"
       ++ "66487523-b549-11f0-a533-66e583c0e6b" ++ "/labels/" ++ id].
Proof.
  intros Hr Ht Hf Hc Hv Hm id. destruct (acquire_split w tok Hr) as [t H].
  pose proof (run_call_requests w
    (CreateLabel "Sophia Shared Evidence" "All evidence collected for the Q4 2025 audit")
    t tok "" H Ht I) as Q1.
  pose proof (run_call_requests w (AddLabelProof id "pony.png" None) t tok bytes H Ht Hf) as Q2.
  pose proof (run_call_requests w
    (LinkLabelToControl "e0683e57-b3d1-11f0-a50c-5a2610f6476" id) t tok "" H Ht I) as Q3.
  pose proof (run_call_requests w
    (LinkLabelToControl "66487523-b549-11f0-a533-66e583c0e6b" id) t tok "" H Ht I) as Q4.
  destruct (run_call_returns w (AddLabelProof id "pony.png" None) t tok H Ht) as [v2 R2].
  destruct (run_call_returns w
    (LinkLabelToControl "e0683e57-b3d1-11f0-a50c-5a2610f6476" id) t tok H Ht) as [v3 R3].
  destruct (run_call_returns w
    (LinkLabelToControl "66487523-b549-11f0-a533-66e583c0e6b" id) t tok H Ht) as [v4 R4].
  simpl run_call in *.
  destruct (AddProofToControl.create_label _ _ w) as [t1 o1] eqn:E1.
  destruct (AddProofToControl.add_label_proof id "pony.png" None w) as [t2 o2] eqn:E2.
  destruct (AddProofToControl.link_label_to_control
              "e0683e57-b3d1-11f0-a50c-5a2610f6476" id w) as [t3 o3] eqn:E3.
  destruct (AddProofToControl.link_label_to_control
              "66487523-b549-11f0-a533-66e583c0e6b" id w) as [t4 o4] eqn:E4.
  simpl in Hc, R2, R3, R4, Q1, Q2, Q3, Q4. subst o1 o2 o3 o4.
  unfold AddProofToControl.main. cbv zeta.
  rewrite (bind_ret_run _ _ w t1 _ E1), Hv.
  cbv beta iota zeta delta [bind ret raise subscript trace result fst snd].
  rewrite Hm. fold id. rewrite E2, E3, E4.
  split; [reflexivity|].
  rewrite !requests_of_app, Q1, Q2, Q3, Q4. reflexivity.
Qed.

Lemma main_creates_uploads_and_links_witness :
  let py_str := fun v => match v with VStr s => s | _ => "" end in
  let id := py_str (dict_get [("id", VStr "p-1")] "id") in
  result (AddProofToControl.main py_str world_ok) = Ret tt /\
  map url (requests_of (trace (AddProofToControl.main py_str world_ok)))
  = ["https://accounts.hyperproof.app/oauth/token";
     "https://api.hyperproof.app/v1/labels/";
     "https://accounts.hyperproof.app/oauth/token";
     "https://api.hyperproof.app/v1/labels/" ++ "/" ++ id ++ "/proof";
     "https://accounts.hyperproof.app/oauth/token";
     "https://api.hyperproof.app/v1/controls" ++ "/"
       ++ "e0683e57-b3d1-11f0-a50c-5a2610f6476" ++ "/labels/" ++ id;
     "https://accounts.hyperproof.app/oauth/token";
     "https://api.hyperproof.app/v1/controls" ++ "/"
       ++ "66487523-b549-11f0-a533-66e583c0e6b" ++ "/labels/" ++ id].
Proof.
  apply (main_creates_uploads_and_links
           (fun v => match v with VStr s => s | _ => "" end)
           world_ok (VStr "tok-1") "bytes" [("id", VStr "p-1")]);
    reflexivity.
Defined.



(** ** Token acquisition, summed up *)

(** X1: Whatever the token endpoint does, either copy of [get_access_token]
    sends exactly one request: a POST to the token URL, form-encoded,
    with the grant type [client_credentials] and the two credentials as
    they were passed, [None] included. *)
Theorem token_request_is_sent_once (s : script) (client_id client_secret : option string)
    (w : world) :
  requests_of
    (trace (match s with
            | add_proof_to_control_py => AddProofToControl.get_access_token
            | call_hyperproof_api_py => CallHyperproofApi.get_access_token
            end client_id client_secret w))
  = [{| method := POST;
        url := "https://accounts.hyperproof.app/oauth/token";
        headers := [("Content-Type", HLit "application/x-www-form-urlencoded")];
        payload := FormBody [("grant_type", Some "client_credentials");
                             ("client_id", client_id);
                             ("client_secret", client_secret)] |}].
Proof.
  destruct s; exact (get_access_token_requests client_id client_secret w).
Qed.

(** X2: [get_access_token] returns a value that passes the truth test
    exactly when the answer has status 200 and decodes to an object whose
    [access_token] entry passes the truth test; the value returned is
    that entry, of whatever JSON type. *)
Theorem token_is_returned_iff (client_id client_secret : option string) (w : world)
    (v : value) :
  (result (AddProofToControl.get_access_token client_id client_secret w) = Ret v /\
   truthy v = true)
  <->
  (exists r d, http w (token_request client_id client_secret) = Reply r /\
               status_code r = 200 /\
               decoded r = Some (VDict d) /\
               dict_get d "access_token" = v /\
               truthy v = true).
Proof. exact (get_access_token_success client_id client_secret w v). Qed.

(** X20: The functions that both scripts define with the same text,
    [get_access_token], [add_proof] and [add_proof_version], run alike:
    same trace, same result, for all arguments in every world. *)
Theorem shared_copies_agree (w : world) :
  (forall client_id client_secret,
     CallHyperproofApi.get_access_token client_id client_secret w
     = AddProofToControl.get_access_token client_id client_secret w) /\
  (forall file_to_upload object_id object_type,
     CallHyperproofApi.add_proof file_to_upload object_id object_type w
     = AddProofToControl.add_proof file_to_upload object_id object_type w) /\
  (forall proof_id file_to_upload content_type,
     CallHyperproofApi.add_proof_version proof_id file_to_upload content_type w
     = AddProofToControl.add_proof_version proof_id file_to_upload content_type w).
Proof. repeat split. Qed.
